(** * Ticket_Raiser frontend: client-side session lifecycle and page rendering

    A shallow embedding of the TypeScript sources

    - [core/config.ts]               (storage keys, refresh buffer)
    - [services/auth.ts]             (the [authService] object)
    - [hooks/useTokenRefresh.ts]     ([isTokenExpiringSoon], [refreshToken])
    - [contexts/AuthContext.tsx]     ([initAuth], [register], [login], ...)
    - [features/MySubmissions]       (fetch, render, pagination)
    - [features/Dashboard]           (role dispatch)
    - [components/ProtectedRoute]    (route guard)
    - [components/Auth.tsx]          ([RegisterForm.handleSubmit])
    - [features/Profile]             ([handleLogoutAll])
    - [features/AdminIssues]         (status filter, placeholder fetch)

    [localStorage] is a finite map from strings to strings, an [async]
    function is a state-passing computation that either fulfils with a value
    or rejects with the thrown value, and a React component is its state
    record together with a pure render function. *)

From Stdlib Require Import ZArith String Ascii List Lia.
From Stdlib Require Import DecimalString DecimalPos DecimalZ DecimalFacts.
From stdpp Require Import base option gmap strings.

Local Open Scope string_scope.
Local Open Scope Z_scope.

(* ===================================================================== *)
(** ** JavaScript values used by the sources *)
(* ===================================================================== *)

Module JS.

(** A JavaScript [number] as the sources use it: an integral count of
    seconds (or of items), or [NaN] when [parseInt] finds no digits.  The
    integers that are Number values are the fixed points of [toDouble]
    below; every integer up to [MAX_SAFE_INTEGER] in magnitude is one.
    Fractions and infinities are not represented. *)
Inductive number : Type :=
| NaN
| Num (z : Z).

#[global] Instance number_eq_dec : EqDecision number.
Proof. solve_decision. Defined.

(** [!!x] for [x : string | null]: [null] and the empty string are falsy. *)
Definition truthy_string (x : option string) : bool :=
  match x with
  | None => false
  | Some EmptyString => false
  | Some (String _ _) => true
  end.

(** [!!x] for [x : number | null]: [null], [0] and [NaN] are falsy. *)
Definition truthy_number (x : option number) : bool :=
  match x with
  | None => false
  | Some NaN => false
  | Some (Num z) => negb (z =? 0)
  end.

(** [Number.MAX_SAFE_INTEGER] and [Number.isSafeInteger] on an integer. *)
Definition MAX_SAFE_INTEGER : Z := 9007199254740991.

Definition isSafeInteger (n : Z) : bool := Z.abs n <=? MAX_SAFE_INTEGER.

(** The Number value of a mathematical integer: itself below 2^53, and
    otherwise the nearest integer with a 53-bit significand, ties going to
    the even significand.  (Overflow to [Infinity], beyond 2^1024, is not
    represented.) *)
Definition toDouble (z : Z) : Z :=
  let a := Z.abs z in
  if a <? 2 ^ 53 then z
  else
    let e := Z.log2 a - 52 in
    let q := Z.shiftr a e in
    let r := a - Z.shiftl q e in
    let half := Z.shiftl 1 (e - 1) in
    let q' := if (half <? r) || ((r =? half) && Z.odd q) then q + 1 else q in
    Z.sgn z * Z.shiftl q' e.

(** Decimal digits with a leading minus sign for negative values. *)
Definition decimalDigits (n : Z) : string :=
  NilZero.string_of_int (Z.to_int n).

Fixpoint stripTrailingZeros (s : string) : string :=
  match s with
  | EmptyString => EmptyString
  | String c r =>
      let r' := stripTrailingZeros r in
      if Ascii.eqb c "0" && String.eqb r' "" then EmptyString else String c r'
  end.

(** Exponent notation: first significant digit, the further significant
    digits after a point, and the decimal exponent. *)
Definition exponential (n : Z) : string :=
  let digits := decimalDigits (Z.abs n) in
  match stripTrailingZeros digits with
  | String d r =>
      ((if (n <? 0)%Z then "-" else "") ++
       String d (if String.eqb r "" then "" else "." ++ r) ++
       "e+" ++ decimalDigits (Z.of_nat (String.length digits) - 1)%Z)%string
  | EmptyString => digits
  end.

(** [Number.prototype.toString()] on an integer-valued number: decimal
    digits below 10^21 in magnitude, exponent notation from there on.  The
    digits are those of [n] itself, which is what JavaScript prints for
    every safe integer and for the larger numbers, such as 10^21, whose
    shortest digit string reading back as the same number is their own;
    for the other numbers above [MAX_SAFE_INTEGER] JavaScript prints that
    shortest digit string instead, and nothing below relies on them. *)
Definition toString (n : Z) : string :=
  if Z.abs n <? 1000000000000000000000 then decimalDigits n else exponential n.

(** White space skipped by [parseInt]: the one-byte characters TAB, LF, VT,
    FF, CR and SP, and, for strings read as UTF-8, the encodings of the
    other members of [StrWhiteSpaceChar] (U+00A0, U+1680, U+2000 to U+200A,
    U+2028, U+2029, U+202F, U+205F, U+3000, U+FEFF). *)
Definition isWhiteSpace (c : ascii) : bool :=
  let n := Z.of_nat (nat_of_ascii c) in
  ((9 <=? n) && (n <=? 13)) || (n =? 32).

Definition code (c : ascii) : Z := Z.of_nat (nat_of_ascii c).

Definition isWhiteSpaceTail (lead : Z) (c1 c2 : ascii) : bool :=
  let b1 := code c1 in
  let b2 := code c2 in
  ((lead =? 225) && (b1 =? 154) && (b2 =? 128))
  || ((lead =? 226) && (b1 =? 128) &&
      (((128 <=? b2) && (b2 <=? 138)) || (b2 =? 168) || (b2 =? 169) || (b2 =? 175)))
  || ((lead =? 226) && (b1 =? 129) && (b2 =? 159))
  || ((lead =? 227) && (b1 =? 128) && (b2 =? 128))
  || ((lead =? 239) && (b1 =? 187) && (b2 =? 191)).

(** The rest of [s] after one leading white-space character, if it starts
    with one. *)
Definition afterWhiteSpace (s : string) : option string :=
  match s with
  | EmptyString => None
  | String c r =>
      if isWhiteSpace c then Some r
      else if code c =? 194 then
        match r with
        | String c1 r1 => if code c1 =? 160 then Some r1 else None
        | EmptyString => None
        end
      else if (code c =? 225) || (code c =? 226) || (code c =? 227) || (code c =? 239)
      then
        match r with
        | String c1 (String c2 r2) =>
            if isWhiteSpaceTail (code c) c1 c2 then Some r2 else None
        | _ => None
        end
      else None
  end.

Fixpoint trimStartFrom (fuel : nat) (s : string) : string :=
  match fuel with
  | O => s
  | S fuel' =>
      match afterWhiteSpace s with
      | Some r => trimStartFrom fuel' r
      | None => s
      end
  end.

(** Each step removes at least one byte, so the length of [s] is fuel
    enough. *)
Definition trimStart (s : string) : string :=
  trimStartFrom (String.length s) s.

Definition digitValue (c : ascii) : option Z :=
  let n := Z.of_nat (nat_of_ascii c) in
  if (48 <=? n) && (n <=? 57) then Some (n - 48) else None.

(** The mathematical value of the longest prefix of decimal digits,
    accumulated from the left. *)
Fixpoint digitsValue (s : string) (acc : Z) : Z :=
  match s with
  | String c r =>
      match digitValue c with
      | Some d => digitsValue r (10 * acc + d)
      | None => acc
      end
  | EmptyString => acc
  end.

Definition startsWithDigit (s : string) : bool :=
  match s with
  | String c _ => bool_decide (is_Some (digitValue c))
  | EmptyString => false
  end.

(** [parseInt(s, 10)]: skip leading white space, read an optional sign,
    then the longest prefix of digits; [NaN] when that prefix is empty,
    and otherwise the Number value of the signed integer read. *)
Definition parseInt (s : string) : number :=
  let s1 := trimStart s in
  let '(sign, s2) :=
    match s1 with
    | String "-"%char r => (-1, r)
    | String "+"%char r => (1, r)
    | _ => (1, s1)
    end in
  if startsWithDigit s2 then Num (toDouble (sign * digitsValue s2 0)) else NaN.

(** A thrown value: an [Error] instance with its [message], or anything
    else ([err instanceof Error] is false). *)
Inductive thrown : Type :=
| ErrorObj (message : string)
| OtherValue (description : string).

(** [err instanceof Error ? err.message : fallback] *)
Definition messageOr (fallback : string) (err : thrown) : string :=
  match err with
  | ErrorObj m => m
  | OtherValue _ => fallback
  end.

End JS.

(* ===================================================================== *)
(** ** core/config.ts *)
(* ===================================================================== *)

Definition API_TIMEOUT : Z := 10000.

Definition ACCESS_TOKEN_KEY : string := "accessToken".
Definition ACCESS_TOKEN_EXPIRY_KEY : string := "accessTokenExpiry".
Definition USER_KEY : string := "user".

Definition ACCESS_TOKEN_BUFFER : Z := 60.

(* ===================================================================== *)
(** ** schemas/auth.ts and the REST interface *)
(* ===================================================================== *)

Record RegisterRequest := {
  reg_username : string;
  reg_email : string;
  reg_password : string;
  reg_role : string
}.

Record LoginRequest := {
  login_username : string;
  login_password : string
}.

(** [expires_at] is a whole number of unix seconds; a fractional value,
    which the declared type [number] would also admit, is not
    represented. *)
Record TokenResponse := {
  access_token : string;
  expires_at : Z
}.

Record MessageResponse := { message : string }.

Record User := {
  id : Z;
  username : string;
  email : string;
  role : string;
  created_at : string
}.

Record Problem := {
  problem_id_ : Z;
  title : string;
  difficulty : string
}.

Record Submission := {
  submission_id : Z;
  problem_id : Z;
  problem : option Problem;
  code : string;
  language : string;
  status : string;
  test_cases_passed : Z;
  total_test_cases : Z;
  submitted_at : string
}.

(** What [GET /submissions/me/submissions] may answer: a bare array, or an
    object whose [data] and [submissions] fields are arrays or missing. *)
Inductive SubmissionsPayload : Type :=
| PayloadArray (items : list Submission)
| PayloadObject (data submissions : option (list Submission)).

(** The body of that answer as the component receives it: a payload of one
    of those shapes, or [null]/[undefined].  (A primitive body behaves like
    an object without the two fields.  Fields holding something truthy that
    is not an array are not represented.) *)
Inductive SubmissionsBody : Type :=
| Payload (payload : SubmissionsPayload)
| Nullish.

(** The calls the sources make through [apiFetch]. *)
Inductive Request : Type :=
| POST_auth_register (data : RegisterRequest)
| POST_auth_login (form_username form_password : string)
| POST_auth_refresh
| POST_auth_logout
| POST_auth_logout_all
| GET_users_me
| POST_auth_change_password (currentPassword newPassword : string)
| GET_submissions_me (skip limit : Z).

Definition Response (r : Request) : Type :=
  match r with
  | POST_auth_register _ => MessageResponse
  | POST_auth_login _ _ => TokenResponse
  | POST_auth_refresh => TokenResponse
  | POST_auth_logout => MessageResponse
  | POST_auth_logout_all => MessageResponse
  | GET_users_me => User
  | POST_auth_change_password _ _ => MessageResponse
  | GET_submissions_me _ _ => SubmissionsBody
  end.

(* ===================================================================== *)
(** ** Asynchronous computations over a mutable state *)
(* ===================================================================== *)

(** How a promise settles. *)
Inductive outcome (A : Type) : Type :=
| Fulfilled (a : A)
| Rejected (err : JS.thrown).
Arguments Fulfilled {A} a.
Arguments Rejected {A} err.

Definition Async (S A : Type) : Type := S -> outcome A * S.

Definition ret {S A} (a : A) : Async S A := fun s => (Fulfilled a, s).

Definition bind {S A B} (m : Async S A) (k : A -> Async S B) : Async S B :=
  fun s =>
    match m s with
    | (Fulfilled a, s') => k a s'
    | (Rejected e, s') => (Rejected e, s')
    end.

Definition throw {S A} (e : JS.thrown) : Async S A := fun s => (Rejected e, s).

Definition gets {S A} (f : S -> A) : Async S A := fun s => (Fulfilled (f s), s).

Definition modify {S} (f : S -> S) : Async S unit := fun s => (Fulfilled tt, f s).

(** [try { body } catch (err) { handler }] *)
Definition try_catch {S A} (body : Async S A) (handler : JS.thrown -> Async S A)
  : Async S A :=
  fun s =>
    match body s with
    | (Fulfilled a, s') => (Fulfilled a, s')
    | (Rejected e, s') => handler e s'
    end.

(** [try { body } finally { fin }]: [fin] always runs; the outcome of [body]
    stands unless [fin] itself throws. *)
Definition try_finally {S A} (body : Async S A) (fin : Async S unit) : Async S A :=
  fun s =>
    let '(o, s') := body s in
    match fin s' with
    | (Fulfilled _, s'') => (o, s'')
    | (Rejected e, s'') => (Rejected e, s'')
    end.

Notation "x <- m ;; k" := (bind m (fun x => k))
  (at level 100, m at next level, k at level 200, right associativity).
Notation "m ;; k" := (bind m (fun _ => k))
  (at level 100, k at level 200, right associativity).

(* ===================================================================== *)
(** ** The browser: durable storage and the network *)
(* ===================================================================== *)

Record Browser := {
  localStorage : gmap string string;
  requests : list Request      (* every call issued so far, oldest first *)
}.

(** The parts of the platform the sources rely on but do not define.
    [http] stands for [apiFetch] of [core/api.ts] together with the backend
    behind it: given the call, the calls made before it and the current
    storage (which the client may read, e.g. for an authorization header,
    and may even rewrite), it settles the promise.  [JSON_stringify] is
    [JSON.stringify] on a [User]. *)
Class Platform := {
  http : forall r : Request,
      list Request -> gmap string string ->
      outcome (Response r) * gmap string string;
  JSON_stringify : User -> string
}.

Definition apiFetch `{Platform} (r : Request) : Async Browser (Response r) :=
  fun b =>
    let '(o, st) := http r (requests b) (localStorage b) in
    (o, {| localStorage := st; requests := requests b ++ [r] |}).

(** [localStorage.getItem/setItem/removeItem] *)
Definition getItem (k : string) (st : gmap string string) : option string := st !! k.
Definition setItem (k v : string) (st : gmap string string) : gmap string string :=
  <[k := v]> st.
Definition removeItem (k : string) (st : gmap string string) : gmap string string :=
  delete k st.

Definition onStorage (f : gmap string string -> gmap string string)
  : Async Browser unit :=
  modify (fun b => {| localStorage := f (localStorage b); requests := requests b |}).

(* ===================================================================== *)
(** ** services/auth.ts *)
(* ===================================================================== *)

Module authService.

Definition setTokens (accessToken : string) (expiresAt : Z)
  (st : gmap string string) : gmap string string :=
  setItem ACCESS_TOKEN_EXPIRY_KEY (JS.toString expiresAt)
    (setItem ACCESS_TOKEN_KEY accessToken st).

Definition getAccessToken (st : gmap string string) : option string :=
  getItem ACCESS_TOKEN_KEY st.

Definition getAccessTokenExpiry (st : gmap string string) : option JS.number :=
  let expiry := getItem ACCESS_TOKEN_EXPIRY_KEY st in
  if JS.truthy_string expiry
  then match expiry with Some e => Some (JS.parseInt e) | None => None end
  else None.

Definition setUser `{Platform} (u : User) (st : gmap string string)
  : gmap string string :=
  setItem USER_KEY (JSON_stringify u) st.

Definition clearTokens (st : gmap string string) : gmap string string :=
  removeItem USER_KEY
    (removeItem ACCESS_TOKEN_EXPIRY_KEY
       (removeItem ACCESS_TOKEN_KEY st)).

Definition isAuthenticated (st : gmap string string) : bool :=
  JS.truthy_string (getAccessToken st).

Definition register `{Platform} (data : RegisterRequest)
  : Async Browser MessageResponse :=
  apiFetch (POST_auth_register data).

Definition login `{Platform} (data : LoginRequest) : Async Browser TokenResponse :=
  response <- apiFetch (POST_auth_login (login_username data) (login_password data)) ;;
  onStorage (setTokens (access_token response) (expires_at response)) ;;
  ret response.

Definition refresh `{Platform} : Async Browser TokenResponse :=
  response <- apiFetch POST_auth_refresh ;;
  onStorage (setTokens (access_token response) (expires_at response)) ;;
  ret response.

Definition logout `{Platform} : Async Browser MessageResponse :=
  try_catch
    (response <- apiFetch POST_auth_logout ;;
     onStorage clearTokens ;;
     ret response)
    (fun error =>
       onStorage clearTokens ;;
       throw error).

Definition logoutAll `{Platform} : Async Browser MessageResponse :=
  try_catch
    (response <- apiFetch POST_auth_logout_all ;;
     onStorage clearTokens ;;
     ret response)
    (fun error =>
       onStorage clearTokens ;;
       throw error).

Definition getCurrentUser `{Platform} : Async Browser User :=
  apiFetch GET_users_me.

Definition changePassword `{Platform} (currentPassword newPassword : string)
  : Async Browser MessageResponse :=
  apiFetch (POST_auth_change_password currentPassword newPassword).

(** [getUser()].  [JSON.parse] is the platform's; it either yields the
    parsed value or throws a [SyntaxError].  A missing or empty entry is
    answered with [null] without parsing. *)
Definition getUser (JSON_parse : string -> outcome User)
  (st : gmap string string) : outcome (option User) :=
  let user := getItem USER_KEY st in
  if JS.truthy_string user
  then match user with
       | Some text =>
           match JSON_parse text with
           | Fulfilled u => Fulfilled (Some u)
           | Rejected e => Rejected e
           end
       | None => Fulfilled None
       end
  else Fulfilled None.

End authService.

(* ===================================================================== *)
(** ** hooks/useTokenRefresh.ts *)
(* ===================================================================== *)

Module useTokenRefresh.

(** [dateNow] is the value of [Date.now()], in milliseconds.  The body of
    the source's [try] is integer arithmetic and a comparison, which cannot
    throw, so its [catch] branch has no counterpart here.  The last two
    cases of the [match] follow JavaScript's arithmetic ([NaN < 60] is
    false, [null] counts as 0); the guard before them makes them
    unreachable. *)
Definition isTokenExpiringSoon (dateNow : Z) (st : gmap string string) : bool :=
  let token := authService.getAccessToken st in
  let expiryTime := authService.getAccessTokenExpiry st in
  if negb (JS.truthy_string token) || negb (JS.truthy_number expiryTime)
  then true
  else
    let now := dateNow / 1000 in
    match expiryTime with
    | Some (JS.Num e) =>
        let expiringIn := e - now in
        expiringIn <? ACCESS_TOKEN_BUFFER
    | Some JS.NaN => false
    | None => 0 - now <? ACCESS_TOKEN_BUFFER
    end.

Definition refreshToken `{Platform} : Async Browser bool :=
  try_catch
    (authService.refresh ;;
     ret true)
    (fun error =>
       onStorage authService.clearTokens ;;
       ret false).

End useTokenRefresh.

(* ===================================================================== *)
(** ** React components: state next to the browser *)
(* ===================================================================== *)

(** A component's handler runs over the component's own state [C] and the
    browser; [svc] runs a service call that only knows the browser. *)
Definition svc {C A} (m : Async Browser A) : Async (C * Browser) A :=
  fun s =>
    let '(o, b) := m (snd s) in (o, (fst s, b)).

Definition setState {C} (f : C -> C) : Async (C * Browser) unit :=
  modify (fun s => (f (fst s), snd s)).

(* ===================================================================== *)
(** ** contexts/AuthContext.tsx *)
(* ===================================================================== *)

Module AuthContext.

Record AuthProvider := {
  user : option User;
  isLoading : bool;
  error : option string
}.

(** The three [useState] initial values. *)
Definition initialState : AuthProvider :=
  {| user := None; isLoading := true; error := None |}.

Definition setUser (u : option User) : Async (AuthProvider * Browser) unit :=
  setState (fun c => {| user := u; isLoading := isLoading c; error := error c |}).
Definition setIsLoading (l : bool) : Async (AuthProvider * Browser) unit :=
  setState (fun c => {| user := user c; isLoading := l; error := error c |}).
Definition setError (e : option string) : Async (AuthProvider * Browser) unit :=
  setState (fun c => {| user := user c; isLoading := isLoading c; error := e |}).

(** [value.isAuthenticated], i.e. [!!user]. *)
Definition isAuthenticated (c : AuthProvider) : bool :=
  bool_decide (is_Some (user c)).

Definition initAuth `{Platform} : Async (AuthProvider * Browser) unit :=
  try_finally
    (try_catch
       (authenticated <- gets (fun s => authService.isAuthenticated (localStorage (snd s))) ;;
        if authenticated : bool then
          currentUser <- svc authService.getCurrentUser ;;
          setUser (Some currentUser) ;;
          svc (onStorage (authService.setUser currentUser))
        else ret tt)
       (fun err =>
          svc (onStorage authService.clearTokens) ;;
          setUser None))
    (setIsLoading false).

Definition register `{Platform} (data : RegisterRequest)
  : Async (AuthProvider * Browser) unit :=
  try_finally
    (try_catch
       (setIsLoading true ;;
        setError None ;;
        svc (authService.register data) ;;
        svc (authService.login
               {| login_username := reg_email data;
                  login_password := reg_password data |}) ;;
        currentUser <- svc authService.getCurrentUser ;;
        setUser (Some currentUser) ;;
        svc (onStorage (authService.setUser currentUser)))
       (fun err =>
          let message := JS.messageOr "Registration failed" err in
          setError (Some message) ;;
          throw err))
    (setIsLoading false).

Definition login `{Platform} (data : LoginRequest)
  : Async (AuthProvider * Browser) unit :=
  try_finally
    (try_catch
       (setIsLoading true ;;
        setError None ;;
        svc (authService.login data) ;;
        currentUser <- svc authService.getCurrentUser ;;
        setUser (Some currentUser) ;;
        svc (onStorage (authService.setUser currentUser)))
       (fun err =>
          let message := JS.messageOr "Login failed" err in
          setError (Some message) ;;
          throw err))
    (setIsLoading false).

Definition logout `{Platform} : Async (AuthProvider * Browser) unit :=
  try_finally
    (try_catch
       (setIsLoading true ;;
        setError None ;;
        svc authService.logout ;;
        setUser None)
       (fun err =>
          let message := JS.messageOr "Logout failed" err in
          setError (Some message) ;;
          throw err))
    (setIsLoading false).

Definition logoutAll `{Platform} : Async (AuthProvider * Browser) unit :=
  try_finally
    (try_catch
       (setIsLoading true ;;
        setError None ;;
        svc authService.logoutAll ;;
        setUser None)
       (fun err =>
          let message := JS.messageOr "Logout failed" err in
          setError (Some message) ;;
          throw err))
    (setIsLoading false).

Definition clearError : Async (AuthProvider * Browser) unit :=
  setError None.

Definition changePassword `{Platform} (currentPassword newPassword : string)
  : Async (AuthProvider * Browser) unit :=
  try_finally
    (try_catch
       (setIsLoading true ;;
        setError None ;;
        svc (authService.changePassword currentPassword newPassword) ;;
        ret tt)
       (fun err =>
          let message := JS.messageOr "Failed to change password" err in
          setError (Some message) ;;
          throw err))
    (setIsLoading false).

End AuthContext.

(* ===================================================================== *)
(** ** features/MySubmissions/MySubmissions.tsx *)
(* ===================================================================== *)

Module MySubmissions.

Record State := {
  loading : bool;
  submissions : list Submission;
  error : option string;
  currentPage : Z
}.

(** [const [itemsPerPage] = useState(10)]: no setter is kept, so the value
    never changes. *)
Definition itemsPerPage : Z := 10.

Definition initialState : State :=
  {| loading := true; submissions := []; error := None; currentPage := 1 |}.

Definition setLoading (l : bool) : Async (State * Browser) unit :=
  setState (fun c => {| loading := l; submissions := submissions c;
                        error := error c; currentPage := currentPage c |}).
Definition setSubmissions (l : list Submission) : Async (State * Browser) unit :=
  setState (fun c => {| loading := loading c; submissions := l;
                        error := error c; currentPage := currentPage c |}).
Definition setError (e : option string) : Async (State * Browser) unit :=
  setState (fun c => {| loading := loading c; submissions := submissions c;
                        error := e; currentPage := currentPage c |}).
Definition setCurrentPage (f : Z -> Z) (c : State) : State :=
  {| loading := loading c; submissions := submissions c;
     error := error c; currentPage := f (currentPage c) |}.

(** [Array.isArray(data) ? data : (data.data || data.submissions || [])];
    an array, even an empty one, is truthy. *)
Definition submissionData (data : SubmissionsPayload) : list Submission :=
  match data with
  | PayloadArray items => items
  | PayloadObject (Some d) _ => d
  | PayloadObject None (Some s) => s
  | PayloadObject None None => []
  end.

(** Reading [data.data] off [null] or [undefined] raises a [TypeError]. *)
Definition readSubmissionData (data : SubmissionsBody)
  : Async (State * Browser) (list Submission) :=
  match data with
  | Payload payload => ret (submissionData payload)
  | Nullish =>
      throw (JS.ErrorObj "Cannot read properties of null (reading 'data')")
  end.

Definition fetchSubmissions `{Platform} : Async (State * Browser) unit :=
  try_finally
    (try_catch
       (setLoading true ;;
        page <- gets (fun s => currentPage (fst s)) ;;
        let skip := (page - 1) * itemsPerPage in
        data <- svc (apiFetch (GET_submissions_me skip itemsPerPage)) ;;
        rows <- readSubmissionData data ;;
        setSubmissions rows ;;
        setError None)
       (fun err =>
          setError (Some (JS.messageOr "Failed to fetch submissions" err)) ;;
          setSubmissions []))
    (setLoading false).

Definition getStatusColor (status : string) : string :=
  if String.eqb status "ACCEPTED" then "status-accepted"
  else if String.eqb status "PENDING" then "status-pending"
  else if String.eqb status "WRONG_ANSWER" then "status-wrong"
  else if String.eqb status "RUNTIME_ERROR" then "status-error"
  else if String.eqb status "TIME_LIMIT_EXCEEDED" then "status-timeout"
  else "status-unknown".

Definition getStatusText (status : string) : string :=
  if String.eqb status "WRONG_ANSWER" then "Wrong Answer"
  else if String.eqb status "RUNTIME_ERROR" then "Runtime Error"
  else if String.eqb status "TIME_LIMIT_EXCEEDED" then "Time Limit Exceeded"
  else status.

(** What is drawn.  Only what the component's logic decides is kept: which
    of the three screens, the rows, and the two pagination buttons. *)
Record Row := {
  key : Z;
  problemTitle : string;
  statusClass : string;
  statusLabel : string;
  scoreText : string;
  languageTag : string
}.

Record Pagination := {
  previousDisabled : bool;
  pageInfo : Z;
  nextDisabled : bool
}.

Inductive Body : Type :=
| EmptyState
| SubmissionsTable (rows : list Row) (pagination : option Pagination).

Inductive View : Type :=
| LoadingState
| Page (errorBanner : option string) (body : Body).

Definition renderRow (submission : Submission) : Row :=
  {| key := submission_id submission;
     problemTitle :=
       (let t := option_map title (problem submission) in
        if JS.truthy_string t then default "" t
        else "Problem " ++ JS.toString (problem_id submission))%string;
     statusClass := getStatusColor (status submission);
     statusLabel := getStatusText (status submission);
     scoreText := (JS.toString (test_cases_passed submission) ++ "/" ++
                   JS.toString (total_test_cases submission))%string;
     languageTag := language submission |}.

Definition arrayLength (l : list Submission) : Z := Z.of_nat (length l).

Definition render (c : State) : View :=
  if loading c && (arrayLength (submissions c) =? 0) then LoadingState
  else
    Page
      (if JS.truthy_string (error c) then error c else None)
      (if arrayLength (submissions c) =? 0 then EmptyState
       else
         SubmissionsTable
           (map renderRow (submissions c))
           (if 0 <? arrayLength (submissions c) then
              Some {| previousDisabled := currentPage c =? 1;
                      pageInfo := currentPage c;
                      nextDisabled := arrayLength (submissions c) <? itemsPerPage |}
            else None)).

(** The two [onClick] handlers. *)
Definition onPrevious (c : State) : State :=
  setCurrentPage (fun prev => Z.max 1 (prev - 1)) c.
Definition onNext (c : State) : State :=
  setCurrentPage (fun prev => prev + 1) c.

(** The pagination controls of a view, if it has any. *)
Definition paginationOf (v : View) : option Pagination :=
  match v with
  | Page _ (SubmissionsTable _ p) => p
  | _ => None
  end.

End MySubmissions.

(* ===================================================================== *)
(** ** features/Dashboard/Dashboard.tsx *)
(* ===================================================================== *)

Module Dashboard.

Inductive ActiveSection : Type := problems | issues.

#[global] Instance ActiveSection_eq_dec : EqDecision ActiveSection.
Proof. solve_decision. Defined.

Inductive AdminPanel : Type := AdminProblems | AdminIssues.

(** The admin wrapper: [Navbar], [AdminSidebar] with its [activeSection]
    prop, and the children of [<main>]. *)
Inductive View : Type :=
| AdminDashboard (AdminSidebar : ActiveSection) (content : list AdminPanel).

(** What evaluating the component gives: a view, or a thrown error. *)
Inductive Rendered : Type :=
| Drawn (view : View)
| Throws (err : JS.thrown).

Definition initialSection : ActiveSection := problems.

(** [user] is what [useAuth()] yields; [user?.role === 'USER'] is false for
    a [null] user.  The customer branch returns [<ProblemsListPage />], but
    the file neither imports nor declares [ProblemsListPage]: evaluating
    the identifier raises a [ReferenceError], so that branch throws instead
    of drawing anything. *)
Definition Dashboard (user : option User) (activeSection : ActiveSection)
  : Rendered :=
  if match user with
     | Some u => bool_decide (role u = "USER")
     | None => false
     end
  then Throws (JS.ErrorObj "ProblemsListPage is not defined")
  else
    Drawn
      (AdminDashboard activeSection
         ((if bool_decide (activeSection = problems) then [AdminProblems] else []) ++
          (if bool_decide (activeSection = issues) then [AdminIssues] else []))).

End Dashboard.

(* ===================================================================== *)
(** ** String methods used by the components *)
(* ===================================================================== *)

Module JSString.

Definition isUpperCase (c : ascii) : bool :=
  let n := nat_of_ascii c in (65 <=? n)%nat && (n <=? 90)%nat.

Definition isLowerCase (c : ascii) : bool :=
  let n := nat_of_ascii c in (97 <=? n)%nat && (n <=? 122)%nat.

(** [String.prototype.toLowerCase/toUpperCase] on the letters A-Z and a-z;
    every other character is left as it is. *)
Definition toLowerChar (c : ascii) : ascii :=
  if isUpperCase c then ascii_of_nat (nat_of_ascii c + 32) else c.

Definition toUpperChar (c : ascii) : ascii :=
  if isLowerCase c then ascii_of_nat (nat_of_ascii c - 32) else c.

Fixpoint toLowerCase (s : string) : string :=
  match s with
  | EmptyString => EmptyString
  | String c r => String (toLowerChar c) (toLowerCase r)
  end.

Fixpoint toUpperCase (s : string) : string :=
  match s with
  | EmptyString => EmptyString
  | String c r => String (toUpperChar c) (toUpperCase r)
  end.

(** [s.replace(a, b)] for one-character [a] and [b]: only the first
    occurrence is replaced. *)
Fixpoint replaceChar (a b : ascii) (s : string) : string :=
  match s with
  | EmptyString => EmptyString
  | String c r => if Ascii.eqb c a then String b r else String c (replaceChar a b r)
  end.

Fixpoint hasLowerCase (s : string) : bool :=
  match s with
  | EmptyString => false
  | String c r => isLowerCase c || hasLowerCase r
  end.

End JSString.

(* ===================================================================== *)
(** ** components/ProtectedRoute.example.tsx *)
(* ===================================================================== *)

Module ProtectedRoute.

Inductive View : Type :=
| LoadingContainer
| NavigateToLogin
| AccessDenied (requiredRole : string)
| Children.

(** [isAuthenticated] and [requiredRole] are props ([requiredRole] may be
    left out); [user] and [isLoading] come from [useAuth()]. *)
Definition ProtectedRoute (isAuthenticated : bool) (requiredRole : option string)
  (ctx : AuthContext.AuthProvider) : View :=
  if AuthContext.isLoading ctx then LoadingContainer
  else if negb isAuthenticated || negb (bool_decide (is_Some (AuthContext.user ctx)))
  then NavigateToLogin
  else
    match AuthContext.user ctx with
    | Some user =>
        if JS.truthy_string requiredRole &&
           negb (String.eqb (role user) (default "" requiredRole))
        then AccessDenied (default "" requiredRole)
        else Children
    | None => NavigateToLogin   (* excluded by the test above *)
    end.

End ProtectedRoute.

(* ===================================================================== *)
(** ** components/Auth.tsx: RegisterForm *)
(* ===================================================================== *)

Module AuthForms.

(** [RegisterForm.handleSubmit]: clear the error, call [register] and
    swallow whatever it throws ([preventDefault] has no effect on the
    state kept here). *)
Definition handleSubmit `{Platform} (formData : RegisterRequest)
  : Async (AuthContext.AuthProvider * Browser) unit :=
  AuthContext.clearError ;;
  try_catch
    (AuthContext.register formData)
    (fun err => ret tt).

End AuthForms.

(* ===================================================================== *)
(** ** features/Profile/Profile.tsx *)
(* ===================================================================== *)

Module Profile.

(** The page state kept here is the router location; the context state
    sits next to it. *)
Definition PageState : Type := (string * AuthContext.AuthProvider)%type.

Definition withContext {A} (m : Async (AuthContext.AuthProvider * Browser) A)
  : Async (PageState * Browser) A :=
  fun s =>
    let '(o, (ctx, b)) := m (snd (fst s), snd s) in
    (o, ((fst (fst s), ctx), b)).

Definition navigate (to : string) : Async (PageState * Browser) unit :=
  setState (fun page : PageState => (to, snd page)).

(** [handleLogoutAll].  [confirmed] is the answer to [window.confirm].  The
    file declares no [setErrorMessage], so evaluating the call in the
    [catch] block raises a [ReferenceError] instead of recording a
    message. *)
Definition handleLogoutAll `{Platform} (confirmed : bool)
  : Async (PageState * Browser) unit :=
  if confirmed then
    try_catch
      (withContext AuthContext.logoutAll ;;
       navigate "/login")
      (fun err =>
         throw (JS.ErrorObj "setErrorMessage is not defined"))
  else ret tt.

End Profile.

(* ===================================================================== *)
(** ** features/AdminIssues/AdminIssues.tsx *)
(* ===================================================================== *)

Module AdminIssues.

Record Issue := {
  issue_id : Z;
  issue_title : string;
  description : string;
  issue_status : string;
  priority : string;
  issue_created_at : string;
  created_by : string
}.

Record State := {
  issues : list Issue;
  loading : bool;
  filter : string
}.

Definition initialState : State :=
  {| issues := []; loading := true; filter := "all" |}.

Definition setIssues (l : list Issue) : Async (State * Browser) unit :=
  setState (fun c => {| issues := l; loading := loading c; filter := filter c |}).
Definition setLoading (l : bool) : Async (State * Browser) unit :=
  setState (fun c => {| issues := issues c; loading := l; filter := filter c |}).
Definition setFilter (f : string) (c : State) : State :=
  {| issues := issues c; loading := loading c; filter := f |}.

(** [fetchIssues]: no request is made; the [catch] only logs. *)
Definition fetchIssues : Async (State * Browser) unit :=
  try_finally
    (try_catch
       (setLoading true ;;
        setIssues [])
       (fun error => ret tt))
    (setLoading false).

Definition keeps (filter : string) (issue : Issue) : bool :=
  if String.eqb filter "all" then true
  else String.eqb (JSString.toLowerCase (issue_status issue))
                  (JSString.toUpperCase filter).

Definition filteredIssues (c : State) : list Issue :=
  List.filter (keeps (filter c)) (issues c).

Record Card := {
  card_key : Z;
  card_title : string;
  statusBadgeClass : string;
  statusBadgeText : string;
  priorityBadgeClass : string;
  priorityBadgeText : string;
  card_description : string;
  reportedBy : string
}.

Definition renderCard (issue : Issue) : Card :=
  {| card_key := issue_id issue;
     card_title := issue_title issue;
     statusBadgeClass :=
       ("issue-status " ++ JSString.toLowerCase (issue_status issue))%string;
     statusBadgeText := issue_status issue;
     priorityBadgeClass :=
       ("issue-priority " ++ JSString.toLowerCase (priority issue))%string;
     priorityBadgeText := priority issue;
     card_description := description issue;
     reportedBy := created_by issue |}.

(** What is drawn below the filter buttons. *)
Inductive View : Type :=
| IssuesLoading
| IssuesEmpty (text : string)
| IssuesList (cards : list Card).

Definition render (c : State) : View :=
  if loading c then IssuesLoading
  else if Z.of_nat (length (filteredIssues c)) =? 0 then
    IssuesEmpty
      (if String.eqb (filter c) "all" then "No issues reported yet"
       else ("No " ++ JSString.replaceChar "_" " " (filter c) ++ " issues")%string)
  else IssuesList (map renderCard (filteredIssues c)).

(** Which filter button carries the [active] class. *)
Definition activeFilterButton (c : State) (button : string) : bool :=
  String.eqb (filter c) button.

End AdminIssues.

(* ===================================================================== *)
(** ** Vocabulary of the properties, and sample platforms *)
(* ===================================================================== *)

(** None of the three durable keys is present. *)
Definition durable_keys_absent (st : gmap string string) : Prop :=
  getItem ACCESS_TOKEN_KEY st = None /\
  getItem ACCESS_TOKEN_EXPIRY_KEY st = None /\
  getItem USER_KEY st = None.

Module Sample.

Definition alice : User :=
  {| id := 7; username := "alice"; email := "alice@example.org";
     role := "USER"; created_at := "2024-01-01T00:00:00Z" |}.

Definition aliceForm : RegisterRequest :=
  {| reg_username := "alice"; reg_email := "alice@example.org";
     reg_password := "correct horse"; reg_role := "USER" |}.

Definition token : TokenResponse :=
  {| access_token := "eyJhbGciOi"; expires_at := 1700003600 |}.

Definition submission (n : Z) : Submission :=
  {| submission_id := n; problem_id := 3; problem := None; code := "return 0;";
     language := "cpp"; status := "ACCEPTED"; test_cases_passed := 4;
     total_test_cases := 4; submitted_at := "2024-01-02T10:00:00Z" |}.

(** The answer of a healthy backend to each call; the submissions endpoint
    serves [pageOf skip limit]. *)
Definition answer (pageOf : Z -> Z -> SubmissionsPayload) (r : Request) : Response r :=
  match r with
  | POST_auth_register _ => {| message := "registered" |}
  | POST_auth_login _ _ => token
  | POST_auth_refresh => token
  | POST_auth_logout => {| message := "bye" |}
  | POST_auth_logout_all => {| message := "bye everywhere" |}
  | GET_users_me => alice
  | POST_auth_change_password _ _ => {| message := "changed" |}
  | GET_submissions_me skip limit => Payload (pageOf skip limit)
  end.

(** A platform whose API client never touches storage and whose backend
    rejects exactly the calls selected by [fails], with HTTP-style errors. *)
Definition scripted (fails : Request -> bool)
  (pageOf : Z -> Z -> SubmissionsPayload) : Platform :=
  {| http r _ st :=
       (if fails r then Rejected (JS.ErrorObj "401 Unauthorized")
        else Fulfilled (answer pageOf r), st);
     JSON_stringify u := username u |}.

Definition noSubmissions : Z -> Z -> SubmissionsPayload :=
  fun _ _ => PayloadArray [].

Definition healthy : Platform := scripted (fun _ => false) noSubmissions.
Definition down : Platform := scripted (fun _ => true) noSubmissions.

Definition is_login (r : Request) : bool :=
  match r with POST_auth_login _ _ => true | _ => false end.
Definition is_users_me (r : Request) : bool :=
  match r with GET_users_me => true | _ => false end.

Definition loginRejected : Platform := scripted is_login noSubmissions.
Definition usersMeRejected : Platform := scripted is_users_me noSubmissions.

(** A backend whose token never expires in practice: the expiry it sends
    is 10^21. *)
Definition farToken : TokenResponse :=
  {| access_token := "eyJhbGciOi"; expires_at := 1000000000000000000000 |}.

Definition farFuture : Platform :=
  {| http r _ st :=
       (Fulfilled
          match r as r0 return Response r0 with
          | POST_auth_login _ _ => farToken
          | POST_auth_refresh => farToken
          | r0 => answer noSubmissions r0
          end, st);
     JSON_stringify u := username u |}.

Definition freshBrowser : Browser := {| localStorage := ∅; requests := [] |}.

Definition browserWith (st : gmap string string) : Browser :=
  {| localStorage := st; requests := [] |}.

End Sample.

(* ===================================================================== *)
(** * Properties *)
(* ===================================================================== *)

(** ** Decimal strings: [toString] and [parseInt] *)

Section DecimalStrings.

Lemma digitsValue_of_uint_acc (d : Decimal.uint) (a : positive) :
  JS.digitsValue (NilEmpty.string_of_uint d) (Z.pos a) = Z.pos (Pos.of_uint_acc d a).
Proof.
  revert a. induction d as [|d IH|d IH|d IH|d IH|d IH|d IH|d IH|d IH|d IH|d IH];
    intros a; [reflexivity | ..];
    cbn [NilEmpty.string_of_uint JS.digitsValue Pos.of_uint_acc];
    change (JS.digitValue _) with (Some 0) || change (JS.digitValue _) with (Some 1)
    || change (JS.digitValue _) with (Some 2) || change (JS.digitValue _) with (Some 3)
    || change (JS.digitValue _) with (Some 4) || change (JS.digitValue _) with (Some 5)
    || change (JS.digitValue _) with (Some 6) || change (JS.digitValue _) with (Some 7)
    || change (JS.digitValue _) with (Some 8) || change (JS.digitValue _) with (Some 9);
    cbv beta iota;
    rewrite <- IH; f_equal; lia.
Qed.

Lemma digitsValue_of_uint (d : Decimal.uint) :
  JS.digitsValue (NilEmpty.string_of_uint d) 0 = Z.of_N (Pos.of_uint d).
Proof.
  induction d as [|d IH|d IH|d IH|d IH|d IH|d IH|d IH|d IH|d IH|d IH];
    [reflexivity | exact IH | ..];
    cbn [NilEmpty.string_of_uint JS.digitsValue Pos.of_uint Z.of_N];
    rewrite <- digitsValue_of_uint_acc; reflexivity.
Qed.

Lemma toDouble_safe (n : Z) : JS.isSafeInteger n = true -> JS.toDouble n = n.
Proof.
  unfold JS.isSafeInteger, JS.MAX_SAFE_INTEGER, JS.toDouble. intros Hn.
  apply Z.leb_le in Hn.
  destruct (Z.ltb_spec (Z.abs n) (2 ^ 53)) as [_|Hbig]; [reflexivity |].
  change (2 ^ 53) with 9007199254740992 in Hbig. lia.
Qed.

Lemma parseInt_string_of_uint (d : Decimal.uint) :
  d <> Decimal.Nil ->
  JS.parseInt (NilEmpty.string_of_uint d)
    = JS.Num (JS.toDouble (Z.of_N (Pos.of_uint d))) /\
  JS.parseInt (String "-" (NilEmpty.string_of_uint d))
    = JS.Num (JS.toDouble (- Z.of_N (Pos.of_uint d))).
Proof.
  intros Hd. pose proof (digitsValue_of_uint d) as Hv.
  destruct d; [congruence | ..]; split;
    unfold JS.parseInt;
    cbn [NilEmpty.string_of_uint] in *;
    match goal with
    | |- context [JS.trimStart ?s] => change (JS.trimStart s) with s
    end;
    cbv beta iota zeta;
    match goal with
    | |- context [JS.startsWithDigit ?s] => change (JS.startsWithDigit s) with true
    end;
    cbv beta iota; rewrite Hv; do 2 f_equal; lia.
Qed.

(** Reading back the decimal digits of an integer gives its Number value. *)
Lemma parseInt_decimalDigits (n : Z) :
  JS.parseInt (JS.decimalDigits n) = JS.Num (JS.toDouble n).
Proof.
  destruct n as [|p|p]; [reflexivity | ..];
    unfold JS.decimalDigits, Z.to_int, NilZero.string_of_int, NilZero.string_of_uint;
    pose proof (DecimalPos.Unsigned.to_uint_nonnil p) as Hnil;
    destruct (parseInt_string_of_uint _ Hnil) as [Hpos Hneg];
    destruct (Pos.to_uint p) eqn:E; try congruence;
    rewrite <- E in *; rewrite ?Hpos, ?Hneg, DecimalPos.Unsigned.of_to; reflexivity.
Qed.

Lemma toString_safe (n : Z) :
  JS.isSafeInteger n = true -> JS.toString n = JS.decimalDigits n.
Proof.
  unfold JS.isSafeInteger, JS.MAX_SAFE_INTEGER, JS.toString. intros Hn.
  apply Z.leb_le in Hn.
  destruct (Z.ltb_spec (Z.abs n) 1000000000000000000000) as [_|Hbig];
    [reflexivity | lia].
Qed.

(** For a safe integer, reading back what [toString] wrote gives the
    number again. *)
Lemma parseInt_toString (n : Z) :
  JS.isSafeInteger n = true -> JS.parseInt (JS.toString n) = JS.Num n.
Proof.
  intros Hn.
  rewrite (toString_safe n Hn), parseInt_decimalDigits, (toDouble_safe n Hn).
  reflexivity.
Qed.

Lemma decimalDigits_truthy (n : Z) :
  JS.truthy_string (Some (JS.decimalDigits n)) = true.
Proof.
  destruct n as [|p|p]; [reflexivity | | reflexivity].
  unfold JS.decimalDigits, Z.to_int, NilZero.string_of_int, NilZero.string_of_uint.
  pose proof (DecimalPos.Unsigned.to_uint_nonnil p) as Hnil.
  destruct (Pos.to_uint p); try congruence; reflexivity.
Qed.

(** [toString] never yields the empty string. *)
Lemma toString_truthy (n : Z) : JS.truthy_string (Some (JS.toString n)) = true.
Proof.
  unfold JS.toString.
  destruct (Z.abs n <? 1000000000000000000000); [apply decimalDigits_truthy |].
  unfold JS.exponential.
  destruct (JS.stripTrailingZeros (JS.decimalDigits (Z.abs n))) as [|d r].
  - apply decimalDigits_truthy.
  - destruct (n <? 0); reflexivity.
Qed.

Lemma truthy_string_spec (x : option string) :
  JS.truthy_string x = true <-> exists s, x = Some s /\ s <> "".
Proof.
  destruct x as [[|c s]|]; simpl; split.
  - discriminate.
  - intros (s & [= <-] & Hne). congruence.
  - intros _. eexists; split; [reflexivity | discriminate].
  - reflexivity.
  - discriminate.
  - intros (s & [=] & _).
Qed.

Lemma truthy_string_false (x : option string) :
  JS.truthy_string x = false <-> x = None \/ x = Some "".
Proof.
  destruct x as [[|c s]|]; simpl; split; auto; try discriminate.
  intros [[=]|[=]].
Qed.

End DecimalStrings.

Example toString_0 : JS.toString 0 = "0".
Proof. reflexivity. Qed.
Example toString_neg : JS.toString (-15) = "-15".
Proof. reflexivity. Qed.
Example toString_seconds : JS.toString 1700003600 = "1700003600".
Proof. reflexivity. Qed.
Example parseInt_seconds : JS.parseInt "1700003600" = JS.Num 1700003600.
Proof. reflexivity. Qed.
Example parseInt_prefix : JS.parseInt "  -42abc" = JS.Num (-42).
Proof. reflexivity. Qed.
Example parseInt_letters : JS.parseInt "abc" = JS.NaN.
Proof. reflexivity. Qed.
Example parseInt_sign_only : JS.parseInt "-" = JS.NaN.
Proof. reflexivity. Qed.
Example toString_exponent : JS.toString 1000000000000000000000 = "1e+21".
Proof. vm_compute. reflexivity. Qed.
Example toString_largest_decimal :
  JS.toString 9007199254740991 = "9007199254740991".
Proof. vm_compute. reflexivity. Qed.
Example parseInt_exponent : JS.parseInt "1e+21" = JS.Num 1.
Proof. vm_compute. reflexivity. Qed.
Example parseInt_rounds_to_even :
  JS.parseInt "9007199254740993" = JS.Num 9007199254740992.
Proof. vm_compute. reflexivity. Qed.
Example parseInt_fraction : JS.parseInt "1700003600.75" = JS.Num 1700003600.
Proof. vm_compute. reflexivity. Qed.

(** ** Storage accessors *)

Section StorageFacts.

Implicit Types st : gmap string string.

Lemma keys_distinct :
  ACCESS_TOKEN_KEY <> ACCESS_TOKEN_EXPIRY_KEY /\
  ACCESS_TOKEN_KEY <> USER_KEY /\
  ACCESS_TOKEN_EXPIRY_KEY <> USER_KEY.
Proof. repeat split; discriminate. Qed.

Lemma clearTokens_absent st : durable_keys_absent (authService.clearTokens st).
Proof.
  destruct keys_distinct as (H1 & H2 & H3).
  unfold durable_keys_absent, authService.clearTokens, getItem, removeItem.
  repeat split.
  - rewrite lookup_delete_ne, lookup_delete_ne, lookup_delete_eq by congruence.
    reflexivity.
  - rewrite lookup_delete_ne, lookup_delete_eq by congruence. reflexivity.
  - apply lookup_delete_eq.
Qed.


Lemma getAccessToken_setTokens st t e :
  authService.getAccessToken (authService.setTokens t e st) = Some t.
Proof.
  destruct keys_distinct as (H1 & _).
  unfold authService.getAccessToken, authService.setTokens, getItem, setItem.
  rewrite lookup_insert_ne by congruence. apply lookup_insert_eq.
Qed.

Lemma getAccessTokenExpiry_setTokens_raw st t e :
  authService.getAccessTokenExpiry (authService.setTokens t e st)
  = Some (JS.parseInt (JS.toString e)).
Proof.
  unfold authService.getAccessTokenExpiry, authService.setTokens, getItem, setItem.
  rewrite lookup_insert_eq, toString_truthy. reflexivity.
Qed.

Lemma getAccessTokenExpiry_setTokens st t e :
  JS.isSafeInteger e = true ->
  authService.getAccessTokenExpiry (authService.setTokens t e st) = Some (JS.Num e).
Proof.
  intros He. rewrite getAccessTokenExpiry_setTokens_raw, parseInt_toString by exact He.
  reflexivity.
Qed.

Lemma getAccessTokenExpiry_None st :
  authService.getAccessTokenExpiry st = None <->
  getItem ACCESS_TOKEN_EXPIRY_KEY st = None \/
  getItem ACCESS_TOKEN_EXPIRY_KEY st = Some "".
Proof.
  unfold authService.getAccessTokenExpiry.
  destruct (getItem ACCESS_TOKEN_EXPIRY_KEY st) as [[|c s]|]; simpl; split;
    auto; try discriminate.
  intros [[=]|[=]].
Qed.

End StorageFacts.

(** ** The auth service and the refresh hook *)

Section ServiceProperties.

Context `{Platform}.

Ltac run_async :=
  unfold useTokenRefresh.refreshToken;
  unfold authService.logout, authService.logoutAll, authService.login,
    authService.refresh, authService.register, authService.getCurrentUser,
    try_catch, try_finally, bind, ret, throw, gets, onStorage, modify, apiFetch;
  cbn [fst snd localStorage requests].

(** C1.  Whatever the remote POST does, [logout()] and [logoutAll()] leave
    none of the three durable keys in storage, and they settle exactly as
    the remote call did: the response is returned on success and the same
    error is re-thrown on failure. *)
Theorem logout_clears_durable_keys (b : Browser) :
  (durable_keys_absent (localStorage (snd (authService.logout b))) /\
   fst (authService.logout b)
     = fst (http POST_auth_logout (requests b) (localStorage b))) /\
  (durable_keys_absent (localStorage (snd (authService.logoutAll b))) /\
   fst (authService.logoutAll b)
     = fst (http POST_auth_logout_all (requests b) (localStorage b))).
Proof.
  split; run_async.
  - destruct (http POST_auth_logout _ _) as [[r|e] st]; cbn;
      (split; [apply clearTokens_absent | reflexivity]).
  - destruct (http POST_auth_logout_all _ _) as [[r|e] st]; cbn;
      (split; [apply clearTokens_absent | reflexivity]).
Qed.

(** C4.  [isAuthenticated()] is true exactly when a non-empty string is
    stored under the access-token key, and two storages that agree on that
    key give the same answer: the expiry and user entries play no part. *)
Theorem isAuthenticated_iff_nonempty_token (st st' : gmap string string) :
  (authService.isAuthenticated st = true <->
   exists t, getItem ACCESS_TOKEN_KEY st = Some t /\ t <> "") /\
  (getItem ACCESS_TOKEN_KEY st' = getItem ACCESS_TOKEN_KEY st ->
   authService.isAuthenticated st' = authService.isAuthenticated st).
Proof.
  unfold authService.isAuthenticated, authService.getAccessToken. split.
  - apply truthy_string_spec.
  - intros ->. reflexivity.
Qed.

(** C5, as the code has it.  When the remote login call fulfils with
    [response], [login] fulfils with it too, and afterwards the stored token
    is [response.access_token].  Whenever [response.expires_at] is a safe
    integer (a whole number of at most [Number.MAX_SAFE_INTEGER] in
    magnitude), the stored expiry is its decimal string, and reading it back
    through [getAccessTokenExpiry] gives [response.expires_at]. *)
Theorem login_stores_server_response
  (data : LoginRequest) (b : Browser) (response : TokenResponse)
  (st1 : gmap string string) :
  http (POST_auth_login (login_username data) (login_password data))
       (requests b) (localStorage b) = (Fulfilled response, st1) ->
  exists b',
    authService.login data b = (Fulfilled response, b') /\
    authService.getAccessToken (localStorage b') = Some (access_token response) /\
    (JS.isSafeInteger (expires_at response) = true ->
     getItem ACCESS_TOKEN_EXPIRY_KEY (localStorage b')
       = Some (JS.decimalDigits (expires_at response)) /\
     authService.getAccessTokenExpiry (localStorage b')
       = Some (JS.Num (expires_at response))).
Proof.
  intros Hhttp. run_async. rewrite Hhttp. cbn.
  eexists; split; [reflexivity |]. cbn [localStorage].
  split; [apply getAccessToken_setTokens |].
  intros Hsafe. split; [| apply getAccessTokenExpiry_setTokens; exact Hsafe].
  unfold authService.setTokens, getItem, setItem.
  rewrite lookup_insert_eq, (toString_safe _ Hsafe). reflexivity.
Qed.

(** C7.  [refreshToken()] never throws.  When [authService.refresh()]
    fulfils it returns [true] and leaves the state refresh produced; when
    refresh rejects, for whatever reason, it removes the three durable keys
    and returns [false]. *)
Theorem refreshToken_outcome (b : Browser) :
  (exists (result : bool) (b'' : Browser),
     useTokenRefresh.refreshToken b = (Fulfilled result, b'')) /\
  match authService.refresh b with
  | (Fulfilled _, b') =>
      useTokenRefresh.refreshToken b = (Fulfilled true, b')
  | (Rejected _, b') =>
      useTokenRefresh.refreshToken b
        = (Fulfilled false,
           {| localStorage := authService.clearTokens (localStorage b');
              requests := requests b' |}) /\
      durable_keys_absent
        (localStorage (snd (useTokenRefresh.refreshToken b)))
  end.
Proof.
  run_async.
  destruct (http POST_auth_refresh _ _) as [[r|e] st]; cbn.
  - split; [eauto | reflexivity].
  - split; [eauto |]. split; [reflexivity | apply clearTokens_absent].
Qed.

End ServiceProperties.

(** A concrete run of C5 against a backend that accepts every call. *)
Lemma login_stores_server_response_witness :
  exists b',
    @authService.login Sample.healthy
      {| login_username := "alice@example.org"; login_password := "correct horse" |}
      Sample.freshBrowser = (Fulfilled Sample.token, b') /\
    authService.getAccessToken (localStorage b') = Some "eyJhbGciOi" /\
    getItem ACCESS_TOKEN_EXPIRY_KEY (localStorage b') = Some "1700003600" /\
    authService.getAccessTokenExpiry (localStorage b') = Some (JS.Num 1700003600).
Proof.
  destruct (@login_stores_server_response Sample.healthy
              {| login_username := "alice@example.org";
                 login_password := "correct horse" |}
              Sample.freshBrowser Sample.token ∅ eq_refl)
    as (b' & Hrun & Htoken & Hexpiry).
  destruct (Hexpiry eq_refl) as [Htext Hread].
  exists b'. repeat split; assumption.
Defined.

(** C5 as worded fails for an expiry of 10^21: the login succeeds, the
    expiry is stored in exponent notation, and reading it back stops at the
    letter, giving 1. *)
Lemma login_large_expiry_counterexample :
  let run := @authService.login Sample.farFuture
               {| login_username := "alice@example.org";
                  login_password := "correct horse" |}
               Sample.freshBrowser in
  fst run = Fulfilled Sample.farToken /\
  authService.getAccessToken (localStorage (snd run))
    = Some (access_token Sample.farToken) /\
  getItem ACCESS_TOKEN_EXPIRY_KEY (localStorage (snd run)) = Some "1e+21" /\
  authService.getAccessTokenExpiry (localStorage (snd run)) = Some (JS.Num 1) /\
  authService.getAccessTokenExpiry (localStorage (snd run))
    <> Some (JS.Num (expires_at Sample.farToken)).
Proof.
  cbv zeta. repeat (split; [vm_compute; reflexivity |]).
  vm_compute. discriminate.
Qed.

Example logout_when_backend_is_down :
  @authService.logout Sample.down
    (Sample.browserWith (authService.setTokens "abc" 1700003600 ∅))
  = (Rejected (JS.ErrorObj "401 Unauthorized"),
     {| localStorage := ∅; requests := [POST_auth_logout] |}).
Proof. vm_compute. reflexivity. Qed.

Example refreshToken_when_backend_is_down :
  @useTokenRefresh.refreshToken Sample.down
    (Sample.browserWith (authService.setTokens "abc" 1700003600 ∅))
  = (Fulfilled false, {| localStorage := ∅; requests := [POST_auth_refresh] |}).
Proof. vm_compute. reflexivity. Qed.

Example refreshToken_when_backend_is_up :
  fst (@useTokenRefresh.refreshToken Sample.healthy Sample.freshBrowser)
  = Fulfilled true.
Proof. reflexivity. Qed.

Example expired_token_still_authenticated :
  authService.isAuthenticated (authService.setTokens "abc" 1 ∅) = true /\
  useTokenRefresh.isTokenExpiringSoon 1700000000000
    (authService.setTokens "abc" 1 ∅) = true.
Proof. split; vm_compute; reflexivity. Qed.

(** ** [isTokenExpiringSoon] *)

Section ExpiringSoon.

Implicit Types st : gmap string string.

(** C2, as the code has it.  [isTokenExpiringSoon()] returns [true] exactly
    when the stored token is absent or empty, or the stored expiry is
    absent or empty, or the stored expiry does not start with a decimal
    integer or reads as 0, or it reads as [e] with [e - now < 60], where
    [now] is [Date.now()] in whole seconds. *)
Theorem isTokenExpiringSoon_iff (dateNow : Z) st :
  useTokenRefresh.isTokenExpiringSoon dateNow st = true <->
  (getItem ACCESS_TOKEN_KEY st = None \/ getItem ACCESS_TOKEN_KEY st = Some "") \/
  (getItem ACCESS_TOKEN_EXPIRY_KEY st = None \/
   getItem ACCESS_TOKEN_EXPIRY_KEY st = Some "") \/
  (exists s, getItem ACCESS_TOKEN_EXPIRY_KEY st = Some s /\
             (JS.parseInt s = JS.NaN \/ JS.parseInt s = JS.Num 0)) \/
  (exists s e, getItem ACCESS_TOKEN_EXPIRY_KEY st = Some s /\
               JS.parseInt s = JS.Num e /\
               e - dateNow / 1000 < ACCESS_TOKEN_BUFFER).
Proof.
  unfold useTokenRefresh.isTokenExpiringSoon, authService.getAccessToken,
    authService.getAccessTokenExpiry.
  generalize (getItem ACCESS_TOKEN_KEY st) (getItem ACCESS_TOKEN_EXPIRY_KEY st).
  intros [[|c t]|] stored; cbn; [intuition auto | | intuition auto].
  destruct stored as [[|c' s]|]; cbn; [intuition auto | | intuition auto].
  destruct (JS.parseInt (String c' s)) as [|e] eqn:Eparse; cbn.
  - split; [intros _ | reflexivity].
    right; right; left. eexists; split; [reflexivity | tauto].
  - destruct (Z.eqb_spec e 0) as [->|Hne]; cbn.
    + split; [intros _ | reflexivity].
      right; right; left. eexists; split; [reflexivity | tauto].
    + rewrite Z.ltb_lt. split.
      * intros Hlt. do 3 right. exists (String c' s), e. tauto.
      * intros [[[=]|[=]] | [[[=]|[=]] | [(s0 & [= <-] & [Hp|Hp])
                                         | (s0 & e0 & [= <-] & Hp & Hlt)]]];
          rewrite Eparse in Hp; try discriminate.
        -- injection Hp as ->. congruence.
        -- injection Hp as ->. exact Hlt.
Qed.

(** C2 as worded fails: with an empty string stored as the token and an
    expiry far in the future, the answer is [true] although neither entry
    is absent and the expiry is more than 60 seconds away. *)
Lemma isTokenExpiringSoon_empty_token_counterexample :
  let st : gmap string string :=
    setItem ACCESS_TOKEN_KEY "" (setItem ACCESS_TOKEN_EXPIRY_KEY "4102444800" ∅) in
  let dateNow := 1700000000000 in
  ~ (useTokenRefresh.isTokenExpiringSoon dateNow st = true <->
     (getItem ACCESS_TOKEN_KEY st = None \/
      getItem ACCESS_TOKEN_EXPIRY_KEY st = None \/
      exists e, authService.getAccessTokenExpiry st = Some (JS.Num e) /\
                e - dateNow / 1000 < ACCESS_TOKEN_BUFFER)).
Proof.
  intros st dateNow [Hclaim _].
  assert (Hrun : useTokenRefresh.isTokenExpiringSoon dateNow st = true)
    by (vm_compute; reflexivity).
  destruct (Hclaim Hrun) as [Habs | [Habs | (e & He & Hlt)]].
  - vm_compute in Habs. discriminate.
  - vm_compute in Habs. discriminate.
  - assert (Hexp : authService.getAccessTokenExpiry st = Some (JS.Num 4102444800))
      by (vm_compute; reflexivity).
    rewrite Hexp in He. injection He as <-.
    unfold dateNow, ACCESS_TOKEN_BUFFER in Hlt.
    change (1700000000000 / 1000) with 1700000000 in Hlt. lia.
Qed.

End ExpiringSoon.

Example expiringSoon_fresh_token :
  useTokenRefresh.isTokenExpiringSoon 1700000000000
    (authService.setTokens "abc" 1700003600 ∅) = false.
Proof. vm_compute. reflexivity. Qed.

Example expiringSoon_inside_buffer :
  useTokenRefresh.isTokenExpiringSoon 1700003541000
    (authService.setTokens "abc" 1700003600 ∅) = true.
Proof. vm_compute. reflexivity. Qed.

Example expiringSoon_at_buffer :
  useTokenRefresh.isTokenExpiringSoon 1700003540000
    (authService.setTokens "abc" 1700003600 ∅) = false.
Proof. vm_compute. reflexivity. Qed.

Example expiringSoon_unreadable_expiry :
  useTokenRefresh.isTokenExpiringSoon 1700000000000
    (setItem ACCESS_TOKEN_KEY "abc" (setItem ACCESS_TOKEN_EXPIRY_KEY "soon" ∅)) = true.
Proof. vm_compute. reflexivity. Qed.

(** ** The auth context *)

Section ContextProperties.

Context `{Platform}.

Ltac step_context :=
  cbn [fst snd localStorage requests login_username login_password
         AuthContext.user AuthContext.isLoading AuthContext.error].

Ltac run_context :=
  unfold AuthContext.initAuth, AuthContext.register;
  unfold AuthContext.setUser, AuthContext.setIsLoading, AuthContext.setError;
  unfold authService.login, authService.register, authService.getCurrentUser;
  unfold try_catch, try_finally, bind, ret, throw, gets, svc, setState,
    onStorage, modify, apiFetch;
  step_context.

(** C6, as the code has it.  On mount with a non-empty token in storage and
    a failing [GET /users/me], [initAuth] completes without throwing, with
    [user] null and [isLoading] false, the three durable keys removed, and
    exactly one request issued: the fetch is not repeated. *)
Theorem initAuth_purges_rejected_token
  (c : AuthContext.AuthProvider) (b : Browser) (t : string)
  (e : JS.thrown) (st1 : gmap string string) :
  getItem ACCESS_TOKEN_KEY (localStorage b) = Some t ->
  t <> "" ->
  http GET_users_me (requests b) (localStorage b) = (Rejected e, st1) ->
  AuthContext.initAuth (c, b)
    = (Fulfilled tt,
       ({| AuthContext.user := None;
           AuthContext.isLoading := false;
           AuthContext.error := AuthContext.error c |},
        {| localStorage := authService.clearTokens st1;
           requests := requests b ++ [GET_users_me] |})) /\
  durable_keys_absent (authService.clearTokens st1).
Proof.
  intros Htok Hne Hhttp.
  assert (Hauth : authService.isAuthenticated (localStorage b) = true).
  { apply truthy_string_spec. exists t. split; assumption. }
  split; [| apply clearTokens_absent].
  run_context. rewrite Hauth. step_context.
  rewrite Hhttp. reflexivity.
Qed.

(** C3, as the code has it.  After [POST /auth/register] succeeded, a failure
    of the login call or of the following [GET /users/me] makes [register]
    re-throw that error with the message recorded in [error], [isLoading]
    false and [user] untouched.  Nothing is rolled back: if the login call
    fails the operation has written nothing to storage, and if the user
    fetch fails the storage is what that call left of the storage holding
    the token and expiry of the login response; when the call left them in
    place, the token is still stored. *)
Theorem register_partial_failure
  (data : RegisterRequest) (c : AuthContext.AuthProvider) (b : Browser)
  (r1 : MessageResponse) (st1 : gmap string string) :
  let step1 := POST_auth_register data in
  let step2 := POST_auth_login (reg_email data) (reg_password data) in
  let failed (e : JS.thrown) : AuthContext.AuthProvider :=
    {| AuthContext.user := AuthContext.user c;
       AuthContext.isLoading := false;
       AuthContext.error := Some (JS.messageOr "Registration failed" e) |} in
  http step1 (requests b) (localStorage b) = (Fulfilled r1, st1) ->
  (forall e st2,
      http step2 (requests b ++ [step1]) st1 = (Rejected e, st2) ->
      AuthContext.register data (c, b)
        = (Rejected e,
           (failed e,
            {| localStorage := st2;
               requests := (requests b ++ [step1]) ++ [step2] |}))) /\
  (forall tok st2 e st3,
      http step2 (requests b ++ [step1]) st1 = (Fulfilled tok, st2) ->
      http GET_users_me ((requests b ++ [step1]) ++ [step2])
           (authService.setTokens (access_token tok) (expires_at tok) st2)
        = (Rejected e, st3) ->
      AuthContext.register data (c, b)
        = (Rejected e,
           (failed e,
            {| localStorage := st3;
               requests := ((requests b ++ [step1]) ++ [step2]) ++ [GET_users_me] |})) /\
      (getItem ACCESS_TOKEN_KEY st3
         = getItem ACCESS_TOKEN_KEY
             (authService.setTokens (access_token tok) (expires_at tok) st2) ->
       authService.getAccessToken
         (localStorage (snd (snd (AuthContext.register data (c, b)))))
         = Some (access_token tok))).
Proof.
  intros step1 step2 failed Hreg. split.
  - intros e st2 Hlogin. subst step1 step2 failed.
    run_context. rewrite Hreg. step_context. rewrite Hlogin. reflexivity.
  - intros tok st2 e st3 Hlogin Hme.
    assert (Hrun : AuthContext.register data (c, b)
                   = (Rejected e,
                      (failed e,
                       {| localStorage := st3;
                          requests := ((requests b ++ [step1]) ++ [step2])
                                        ++ [GET_users_me] |}))).
    { subst step1 step2 failed.
      run_context. rewrite Hreg. step_context. rewrite Hlogin.
      step_context. rewrite Hme. reflexivity. }
    split; [exact Hrun |].
    intros Hkept. rewrite Hrun. cbn [snd localStorage].
    unfold authService.getAccessToken at 1. rewrite Hkept.
    apply getAccessToken_setTokens.
Qed.

(** X15.  The context-level [logout]: the durable keys are gone whether or
    not the remote call succeeded and [isLoading] ends false.  On success
    [user] becomes null; on failure the error is recorded and re-thrown and
    [user] keeps its value, so the context still counts as signed in. *)
Lemma context_logout_outcome (c : AuthContext.AuthProvider) (b : Browser) :
  let run := AuthContext.logout (c, b) in
  durable_keys_absent (localStorage (snd (snd run))) /\
  AuthContext.isLoading (fst (snd run)) = false /\
  match fst (http POST_auth_logout (requests b) (localStorage b)) with
  | Fulfilled _ =>
      fst run = Fulfilled tt /\ AuthContext.user (fst (snd run)) = None
  | Rejected e =>
      fst run = Rejected e /\
      AuthContext.user (fst (snd run)) = AuthContext.user c /\
      AuthContext.error (fst (snd run)) = Some (JS.messageOr "Logout failed" e)
  end.
Proof.
  unfold AuthContext.logout.
  unfold AuthContext.setUser, AuthContext.setIsLoading, AuthContext.setError.
  unfold authService.logout.
  unfold try_catch, try_finally, bind, ret, throw, gets, svc, setState,
    onStorage, modify, apiFetch.
  step_context.
  destruct (http POST_auth_logout _ _) as [[r|e] st]; step_context;
    (split; [apply clearTokens_absent | repeat split; reflexivity]).
Qed.

(** X16.  The context-level [logoutAll] behaves like [logout] against the
    logout-all endpoint: keys gone either way, [user] null only on success,
    error recorded and re-thrown on failure. *)
Lemma context_logoutAll_outcome (c : AuthContext.AuthProvider) (b : Browser) :
  let run := AuthContext.logoutAll (c, b) in
  durable_keys_absent (localStorage (snd (snd run))) /\
  AuthContext.isLoading (fst (snd run)) = false /\
  match fst (http POST_auth_logout_all (requests b) (localStorage b)) with
  | Fulfilled _ =>
      fst run = Fulfilled tt /\ AuthContext.user (fst (snd run)) = None
  | Rejected e =>
      fst run = Rejected e /\
      AuthContext.user (fst (snd run)) = AuthContext.user c /\
      AuthContext.error (fst (snd run)) = Some (JS.messageOr "Logout failed" e)
  end.
Proof.
  unfold AuthContext.logoutAll.
  unfold AuthContext.setUser, AuthContext.setIsLoading, AuthContext.setError.
  unfold authService.logoutAll.
  unfold try_catch, try_finally, bind, ret, throw, gets, svc, setState,
    onStorage, modify, apiFetch.
  step_context.
  destruct (http POST_auth_logout_all _ _) as [[r|e] st]; step_context;
    (split; [apply clearTokens_absent | repeat split; reflexivity]).
Qed.

(** The [finally { setIsLoading(false) }] of every context operation: however
    the body settles, it settles the same way afterwards and [isLoading]
    is false. *)
Lemma finally_clears_loading {A}
  (body : Async (AuthContext.AuthProvider * Browser) A)
  (s : AuthContext.AuthProvider * Browser) :
  let run := try_finally body (AuthContext.setIsLoading false) s in
  fst run = fst (body s) /\
  AuthContext.isLoading (fst (snd run)) = false /\
  snd (snd run) = snd (snd (body s)).
Proof.
  unfold try_finally, AuthContext.setIsLoading, setState, modify.
  destruct (body s) as [o [c' b']]. cbn. repeat split.
Qed.

End ContextProperties.

(** C6 as worded fails for a token that is present but empty: the fetch is
    never attempted and nothing is removed from storage. *)
Lemma initAuth_empty_token_counterexample :
  let b := Sample.browserWith (setItem ACCESS_TOKEN_KEY "" ∅) in
  let run := @AuthContext.initAuth Sample.down (AuthContext.initialState, b) in
  is_Some (getItem ACCESS_TOKEN_KEY (localStorage b)) /\
  fst (@http Sample.down GET_users_me (requests b) (localStorage b))
    = Rejected (JS.ErrorObj "401 Unauthorized") /\
  requests (snd (snd run)) = [] /\
  ~ durable_keys_absent (localStorage (snd (snd run))).
Proof.
  cbv zeta. split; [| split; [| split]].
  - exists "". vm_compute. reflexivity.
  - reflexivity.
  - reflexivity.
  - intros (Habs & _). vm_compute in Habs. discriminate.
Qed.

(** A concrete mount for C6: token stored, backend answering 401. *)
Lemma initAuth_purges_rejected_token_witness :
  let b := Sample.browserWith (authService.setTokens "abc" 1700003600 ∅) in
  @AuthContext.initAuth Sample.down (AuthContext.initialState, b)
    = (Fulfilled tt,
       ({| AuthContext.user := None;
           AuthContext.isLoading := false;
           AuthContext.error := None |},
        {| localStorage := authService.clearTokens (localStorage b);
           requests := [GET_users_me] |})) /\
  durable_keys_absent (authService.clearTokens (localStorage b)).
Proof.
  intros b.
  apply (@initAuth_purges_rejected_token Sample.down AuthContext.initialState b
           "abc" (JS.ErrorObj "401 Unauthorized") (localStorage b)).
  - vm_compute. reflexivity.
  - discriminate.
  - reflexivity.
Defined.

(** C3 as worded fails when the third step fails: registration and login
    succeed, [GET /users/me] is rejected, the operation re-throws, and the
    token written by the login step is still in storage. *)
Lemma register_keeps_token_counterexample :
  let run := @AuthContext.register Sample.usersMeRejected Sample.aliceForm
               (AuthContext.initialState, Sample.freshBrowser) in
  requests (snd (snd run))
    = [POST_auth_register Sample.aliceForm;
       POST_auth_login "alice@example.org" "correct horse";
       GET_users_me] /\
  fst run = Rejected (JS.ErrorObj "401 Unauthorized") /\
  ~ (authService.getAccessToken (localStorage (snd (snd run))) = None /\
     AuthContext.user (fst (snd run)) = None).
Proof.
  cbv zeta. split; [| split].
  - vm_compute. reflexivity.
  - vm_compute. reflexivity.
  - intros [Hnone _]. vm_compute in Hnone. discriminate.
Qed.

(** Concrete runs for C3: one backend rejecting the login call, one
    rejecting the user fetch. *)
Lemma register_partial_failure_witness :
  (@AuthContext.register Sample.loginRejected Sample.aliceForm
     (AuthContext.initialState, Sample.freshBrowser)
   = (Rejected (JS.ErrorObj "401 Unauthorized"),
      ({| AuthContext.user := None;
          AuthContext.isLoading := false;
          AuthContext.error := Some "401 Unauthorized" |},
       {| localStorage := ∅;
          requests := [POST_auth_register Sample.aliceForm;
                       POST_auth_login "alice@example.org" "correct horse"] |}))) /\
  authService.getAccessToken
    (localStorage (snd (snd (@AuthContext.register Sample.usersMeRejected
                               Sample.aliceForm
                               (AuthContext.initialState, Sample.freshBrowser)))))
  = Some "eyJhbGciOi".
Proof.
  split.
  - apply (proj1 (@register_partial_failure Sample.loginRejected Sample.aliceForm
                    AuthContext.initialState Sample.freshBrowser
                    {| message := "registered" |} ∅ eq_refl)
             (JS.ErrorObj "401 Unauthorized") ∅ eq_refl).
  - apply (proj2 (@register_partial_failure Sample.usersMeRejected Sample.aliceForm
                    AuthContext.initialState Sample.freshBrowser
                    {| message := "registered" |} ∅ eq_refl)
             Sample.token ∅ (JS.ErrorObj "401 Unauthorized")
             (authService.setTokens "eyJhbGciOi" 1700003600 ∅) eq_refl eq_refl).
    reflexivity.
Defined.

(** ** MySubmissions: what is drawn for a fetched page *)

Section SubmissionsProperties.

Import MySubmissions.

Lemma arrayLength_zero (l : list Submission) : arrayLength l = 0 <-> l = [].
Proof.
  unfold arrayLength. destruct l; cbn [length]; split; try reflexivity;
    try discriminate; lia.
Qed.

(** The pagination controls exist exactly for a non-empty list, and their
    attributes are the ones the component computes. *)
Lemma paginationOf_render (c : State) :
  paginationOf (render c)
  = match submissions c with
    | [] => None
    | _ :: _ =>
        Some {| previousDisabled := currentPage c =? 1;
                pageInfo := currentPage c;
                nextDisabled := arrayLength (submissions c) <? itemsPerPage |}
    end.
Proof.
  unfold render. destruct (submissions c) as [|x l] eqn:E.
  - change (arrayLength [] =? 0) with true. rewrite andb_true_r.
    destruct (loading c); reflexivity.
  - assert (Hlen : 0 < arrayLength (x :: l)).
    { unfold arrayLength. cbn [length]. lia. }
    destruct (Z.eqb_spec (arrayLength (x :: l)) 0) as [H0|_]; [lia |].
    destruct (Z.ltb_spec 0 (arrayLength (x :: l))) as [_|H0]; [| lia].
    rewrite andb_false_r. reflexivity.
Qed.

(** C8, as the code has it.  [itemsPerPage] is 10.  Pagination is drawn
    exactly when the last fetched page is non-empty; whenever it is drawn,
    "Next" is disabled exactly when the page holds fewer than
    [itemsPerPage] entries and enabled exactly when it holds at least that
    many. *)
Theorem next_button_follows_page_size (c : State) :
  itemsPerPage = 10 /\
  (is_Some (paginationOf (render c)) <-> submissions c <> []) /\
  (forall p, paginationOf (render c) = Some p ->
     (nextDisabled p = true <-> arrayLength (submissions c) < itemsPerPage) /\
     (nextDisabled p = false <-> itemsPerPage <= arrayLength (submissions c))).
Proof.
  split; [reflexivity |]. rewrite paginationOf_render.
  destruct (submissions c) as [|x l]; split.
  - split; [intros [p [=]] | congruence].
  - intros p [=].
  - split; [discriminate | eauto].
  - intros p [= <-]. cbn [nextDisabled].
    destruct (Z.ltb_spec (arrayLength (x :: l)) itemsPerPage); split; split;
      try reflexivity; try discriminate; try lia; intros; assumption.
Qed.

(** C8 as worded fails on an empty page: it has fewer than ten entries, yet
    no "Next" button is drawn, disabled or otherwise. *)
Lemma next_button_empty_page_counterexample :
  let c := {| loading := false; submissions := []; error := None;
              currentPage := 2 |} in
  arrayLength (submissions c) < itemsPerPage /\
  render c = Page None EmptyState /\
  ~ (exists p, paginationOf (render c) = Some p /\ nextDisabled p = true).
Proof.
  cbv zeta. split; [reflexivity |]. split; [reflexivity |].
  intros (p & Hp & _). discriminate Hp.
Qed.

End SubmissionsProperties.

Section FetchProperties.

Context `{Platform}.

Import MySubmissions.

(** C9, as the code has it.  When the fetch for the current page fulfils
    with zero submissions (in any of the accepted shapes), the component
    ends on the same page, not loading, without error banner, showing the
    empty state, and the empty state carries no pagination at all.  A
    "Previous" button is drawn only next to a non-empty list, and it is then
    disabled exactly on page 1. *)
Theorem empty_fetch_renders_empty_state
  (c : State) (b : Browser) (data : SubmissionsPayload)
  (st1 : gmap string string) :
  http (GET_submissions_me ((currentPage c - 1) * itemsPerPage) itemsPerPage)
       (requests b) (localStorage b) = (Fulfilled (Payload data), st1) ->
  submissionData data = [] ->
  (exists c' b',
      fetchSubmissions (c, b) = (Fulfilled tt, (c', b')) /\
      currentPage c' = currentPage c /\
      render c' = Page None EmptyState /\
      paginationOf (render c') = None) /\
  (forall c2 p,
      paginationOf (render c2) = Some p ->
      submissions c2 <> [] /\
      (previousDisabled p = true <-> currentPage c2 = 1)).
Proof.
  intros Hhttp Hempty. split.
  - unfold fetchSubmissions, setLoading, setSubmissions, setError.
    unfold try_catch, try_finally, bind, ret, gets, svc, setState, modify, apiFetch.
    cbn [fst snd loading submissions error currentPage localStorage requests].
    rewrite Hhttp. unfold readSubmissionData, ret.
    cbn [fst snd loading submissions error currentPage localStorage requests].
    rewrite Hempty. do 2 eexists. split; [reflexivity |].
    cbn [currentPage]. split; [reflexivity |]. split; reflexivity.
  - intros c2 p. rewrite paginationOf_render.
    destruct (submissions c2) as [|x l]; [discriminate |].
    intros [= <-]. split; [discriminate |]. cbn [previousDisabled].
    apply Z.eqb_eq.
Qed.

End FetchProperties.

(** C9 as worded fails: after the first fetch returned no submissions the
    empty state is shown on page 1, and there is no "Previous" button that
    could be disabled. *)
Lemma empty_state_has_no_previous_counterexample :
  let run := @MySubmissions.fetchSubmissions Sample.healthy
               (MySubmissions.initialState, Sample.freshBrowser) in
  let c' := fst (snd run) in
  requests (snd (snd run)) = [GET_submissions_me 0 10] /\
  MySubmissions.submissions c' = [] /\
  MySubmissions.currentPage c' = 1 /\
  MySubmissions.render c' = MySubmissions.Page None MySubmissions.EmptyState /\
  ~ (exists p, MySubmissions.paginationOf (MySubmissions.render c') = Some p /\
               MySubmissions.previousDisabled p = true).
Proof.
  cbv zeta. repeat (split; [reflexivity |]).
  intros (p & Hp & _). discriminate Hp.
Qed.

(** A concrete run for C9: first page, backend with no submissions. *)
Lemma empty_fetch_renders_empty_state_witness :
  (exists c' b',
      @MySubmissions.fetchSubmissions Sample.healthy
        (MySubmissions.initialState, Sample.freshBrowser)
        = (Fulfilled tt, (c', b')) /\
      MySubmissions.currentPage c' = 1 /\
      MySubmissions.render c' = MySubmissions.Page None MySubmissions.EmptyState /\
      MySubmissions.paginationOf (MySubmissions.render c') = None) /\
  (forall c2 p,
      MySubmissions.paginationOf (MySubmissions.render c2) = Some p ->
      MySubmissions.submissions c2 <> [] /\
      (MySubmissions.previousDisabled p = true <-> MySubmissions.currentPage c2 = 1)).
Proof.
  apply (@empty_fetch_renders_empty_state Sample.healthy
           MySubmissions.initialState Sample.freshBrowser (PayloadArray []) ∅).
  - reflexivity.
  - reflexivity.
Defined.

Example render_short_page :
  MySubmissions.paginationOf
    (MySubmissions.render
       {| MySubmissions.loading := false;
          MySubmissions.submissions := map Sample.submission [1; 2; 3];
          MySubmissions.error := None;
          MySubmissions.currentPage := 1 |})
  = Some {| MySubmissions.previousDisabled := true;
            MySubmissions.pageInfo := 1;
            MySubmissions.nextDisabled := true |}.
Proof. reflexivity. Qed.

Example render_full_page :
  MySubmissions.paginationOf
    (MySubmissions.render
       {| MySubmissions.loading := false;
          MySubmissions.submissions :=
            map Sample.submission [1; 2; 3; 4; 5; 6; 7; 8; 9; 10];
          MySubmissions.error := None;
          MySubmissions.currentPage := 2 |})
  = Some {| MySubmissions.previousDisabled := false;
            MySubmissions.pageInfo := 2;
            MySubmissions.nextDisabled := false |}.
Proof. reflexivity. Qed.

Example fetch_failure_shows_banner :
  MySubmissions.render
    (fst (snd (@MySubmissions.fetchSubmissions Sample.down
                 (MySubmissions.initialState, Sample.freshBrowser))))
  = MySubmissions.Page (Some "401 Unauthorized") MySubmissions.EmptyState.
Proof. reflexivity. Qed.

(** ** Dashboard *)

Section DashboardProperties.

Import Dashboard.

(** The children of [<main>] for a given section. *)
Lemma admin_content (s : ActiveSection) (user : option User) :
  (forall u, user = Some u -> role u <> "USER") ->
  Dashboard user s
  = Drawn (AdminDashboard s match s with
                            | problems => [AdminProblems]
                            | issues => [AdminIssues]
                            end).
Proof.
  intros Hrole. unfold Dashboard. destruct user as [u|].
  - rewrite bool_decide_eq_false_2 by (apply Hrole; reflexivity).
    destruct s; reflexivity.
  - destruct s; reflexivity.
Qed.

(** C10, as the code has it.  [Dashboard] draws the admin view exactly when
    it is not the case that [user] is non-null with role ['USER'], so also
    for a null user and for the role ['PROBLEM_SETTER'].  The admin view is
    the sidebar with the active section and, in [<main>], the panel of that
    section alone: [AdminProblems] for ['problems'] (the initial section),
    [AdminIssues] for ['issues']. *)
Theorem Dashboard_admin_view_iff_not_customer
  (user : option User) (s : ActiveSection) :
  let adminView :=
    AdminDashboard s match s with
                     | problems => [AdminProblems]
                     | issues => [AdminIssues]
                     end in
  (Dashboard user s = Drawn adminView <->
   ~ exists u, user = Some u /\ role u = "USER") /\
  Dashboard None s = Drawn adminView /\
  (forall u, role u = "PROBLEM_SETTER" -> Dashboard (Some u) s = Drawn adminView).
Proof.
  intros adminView. split; [| split].
  - split.
    + intros Hdrawn (u & -> & Hu). unfold Dashboard in Hdrawn.
      rewrite bool_decide_eq_true_2 in Hdrawn by exact Hu. discriminate.
    + intros Hnot. apply admin_content. intros u -> Hu. apply Hnot. eauto.
  - apply admin_content. intros u [=].
  - intros u Hu. apply admin_content. intros u' [= <-]. rewrite Hu. discriminate.
Qed.

(** C10 as worded fails on the panels: for an unauthenticated visitor the
    admin view is drawn with [AdminProblems] alone; no state shows
    [AdminProblems] and [AdminIssues] together. *)
Lemma Dashboard_one_panel_counterexample :
  Dashboard None initialSection = Drawn (AdminDashboard problems [AdminProblems]) /\
  ~ (exists sidebar content,
        Dashboard None initialSection = Drawn (AdminDashboard sidebar content) /\
        In AdminProblems content /\ In AdminIssues content).
Proof.
  split; [reflexivity |].
  intros (sidebar & content & [= <- <-] & _ & [[=] | []]).
Qed.


End DashboardProperties.


Example Dashboard_issues_section :
  Dashboard.Dashboard None Dashboard.issues
  = Dashboard.Drawn (Dashboard.AdminDashboard Dashboard.issues [Dashboard.AdminIssues]).
Proof. reflexivity. Qed.

(* ===================================================================== *)
(** * Further properties of the session code *)
(* ===================================================================== *)

(** ** Storage discipline of the auth service *)

Section StorageDiscipline.

Context `{Platform}.

Implicit Types st : gmap string string.

Ltac storage_lookup :=
  unfold authService.clearTokens, authService.setTokens, authService.setUser,
    getItem, setItem, removeItem,
    ACCESS_TOKEN_KEY, ACCESS_TOKEN_EXPIRY_KEY, USER_KEY in *;
  repeat (rewrite lookup_insert || rewrite lookup_delete);
  repeat case_decide; subst; try congruence; try discriminate.

Lemma clearTokens_lookup st k :
  authService.clearTokens st !! k
  = if bool_decide (k = ACCESS_TOKEN_KEY \/ k = ACCESS_TOKEN_EXPIRY_KEY \/ k = USER_KEY)
    then None else st !! k.
Proof.
  case_bool_decide as Hk.
  - destruct Hk as [-> | [-> | ->]]; storage_lookup.
  - assert (k <> ACCESS_TOKEN_KEY /\ k <> ACCESS_TOKEN_EXPIRY_KEY /\ k <> USER_KEY)
      as (H1 & H2 & H3) by tauto.
    storage_lookup.
Qed.


(** X2.  [setTokens] is last-write-wins on its two keys and touches no
    other: a second call erases every trace of the first, and the cached
    user (like any other entry) survives a token update. *)
Theorem setTokens_last_write_wins st (t1 t2 : string) (e1 e2 : Z) :
  authService.setTokens t2 e2 (authService.setTokens t1 e1 st)
    = authService.setTokens t2 e2 st /\
  (forall k, k <> ACCESS_TOKEN_KEY -> k <> ACCESS_TOKEN_EXPIRY_KEY ->
             getItem k (authService.setTokens t1 e1 st) = getItem k st) /\
  getItem USER_KEY (authService.setTokens t1 e1 st) = getItem USER_KEY st.
Proof.
  split; [| split].
  - apply map_eq. intros k. storage_lookup.
  - intros k H1 H2. storage_lookup.
  - storage_lookup.
Qed.

(** X3.  Clearing undoes a whole session: whatever tokens and user were
    stored on top of a storage, [clearTokens] gives the same result as
    clearing that storage directly. *)
Theorem clearTokens_erases_session st (t : string) (e : Z) (u : User) :
  authService.clearTokens (authService.setUser u (authService.setTokens t e st))
    = authService.clearTokens st /\
  authService.clearTokens (authService.setTokens t e (authService.setUser u st))
    = authService.clearTokens st.
Proof.
  split; apply map_eq; intros k; rewrite !clearTokens_lookup;
    case_bool_decide as Hk; try reflexivity;
    assert (k <> ACCESS_TOKEN_KEY /\ k <> ACCESS_TOKEN_EXPIRY_KEY /\ k <> USER_KEY)
      as (H1 & H2 & H3) by tauto;
    storage_lookup.
Qed.

Ltac run_service :=
  unfold useTokenRefresh.refreshToken;
  unfold authService.logout, authService.logoutAll, authService.login,
    authService.refresh, authService.register, authService.getCurrentUser,
    try_catch, try_finally, bind, ret, throw, gets, onStorage, modify, apiFetch;
  cbn [fst snd localStorage requests].

(** X4.  A fulfilled [refresh] overwrites the stored token and expiry with
    the server's, leaves the cached user entry alone and issues exactly one
    request; when the server's expiry is a safe integer it is read back as
    the number sent. *)
Theorem refresh_overwrites_tokens
  (b : Browser) (response : TokenResponse) (st1 : gmap string string) :
  http POST_auth_refresh (requests b) (localStorage b) = (Fulfilled response, st1) ->
  JS.isSafeInteger (expires_at response) = true ->
  exists b',
    authService.refresh b = (Fulfilled response, b') /\
    authService.getAccessToken (localStorage b') = Some (access_token response) /\
    getItem ACCESS_TOKEN_EXPIRY_KEY (localStorage b')
      = Some (JS.toString (expires_at response)) /\
    authService.getAccessTokenExpiry (localStorage b')
      = Some (JS.Num (expires_at response)) /\
    getItem USER_KEY (localStorage b') = getItem USER_KEY st1 /\
    requests b' = (requests b ++ [POST_auth_refresh])%list.
Proof.
  intros Hhttp Hsafe. run_service. rewrite Hhttp. cbn.
  eexists; split; [reflexivity |]. cbn [localStorage requests].
  split; [apply getAccessToken_setTokens |].
  split; [unfold authService.setTokens, getItem, setItem; apply lookup_insert_eq |].
  split; [apply getAccessTokenExpiry_setTokens; exact Hsafe |].
  split; [| reflexivity]. storage_lookup.
Qed.

(** X5.  A rejected [login] or [refresh] propagates the error unchanged,
    writes nothing to storage (it is left as the API client left it) and is
    not retried: one request is logged. *)
Theorem failed_login_and_refresh_store_nothing
  (data : LoginRequest) (b : Browser) :
  let loginCall := POST_auth_login (login_username data) (login_password data) in
  (forall e st1,
      http loginCall (requests b) (localStorage b) = (Rejected e, st1) ->
      authService.login data b
        = (Rejected e, {| localStorage := st1; requests := requests b ++ [loginCall] |})) /\
  (forall e st1,
      http POST_auth_refresh (requests b) (localStorage b) = (Rejected e, st1) ->
      authService.refresh b
        = (Rejected e,
           {| localStorage := st1; requests := requests b ++ [POST_auth_refresh] |})).
Proof.
  split; intros e st1 Hhttp; run_service; rewrite Hhttp; reflexivity.
Qed.

End StorageDiscipline.

Lemma refresh_overwrites_tokens_witness :
  exists b',
    @authService.refresh Sample.healthy
      (Sample.browserWith (authService.setTokens "old" 5 ∅))
      = (Fulfilled Sample.token, b') /\
    authService.getAccessToken (localStorage b') = Some "eyJhbGciOi" /\
    getItem ACCESS_TOKEN_EXPIRY_KEY (localStorage b') = Some "1700003600" /\
    authService.getAccessTokenExpiry (localStorage b') = Some (JS.Num 1700003600) /\
    getItem USER_KEY (localStorage b')
      = getItem USER_KEY (authService.setTokens "old" 5 ∅) /\
    requests b' = [POST_auth_refresh].
Proof.
  apply (@refresh_overwrites_tokens Sample.healthy
           (Sample.browserWith (authService.setTokens "old" 5 ∅))
           Sample.token (authService.setTokens "old" 5 ∅)).
  - reflexivity.
  - reflexivity.
Defined.

Lemma failed_login_and_refresh_store_nothing_witness :
  @authService.login Sample.down
    {| login_username := "alice@example.org"; login_password := "wrong" |}
    Sample.freshBrowser
  = (Rejected (JS.ErrorObj "401 Unauthorized"),
     {| localStorage := ∅;
        requests := [POST_auth_login "alice@example.org" "wrong"] |}) /\
  @authService.refresh Sample.down Sample.freshBrowser
  = (Rejected (JS.ErrorObj "401 Unauthorized"),
     {| localStorage := ∅; requests := [POST_auth_refresh] |}).
Proof.
  split.
  - apply (proj1 (@failed_login_and_refresh_store_nothing Sample.down
                    {| login_username := "alice@example.org";
                       login_password := "wrong" |} Sample.freshBrowser)
             (JS.ErrorObj "401 Unauthorized") ∅ eq_refl).
  - apply (proj2 (@failed_login_and_refresh_store_nothing Sample.down
                    {| login_username := "alice@example.org";
                       login_password := "wrong" |} Sample.freshBrowser)
             (JS.ErrorObj "401 Unauthorized") ∅ eq_refl).
Defined.

(** ** The cached user *)

Section CachedUser.

Context `{Platform}.

Variable JSON_parse : string -> outcome User.

Implicit Types st : gmap string string.

(** X6.  [getUser()] answers [null] without parsing when the entry is
    missing, empty or has been cleared; for any non-empty entry it returns
    exactly what [JSON.parse] returns, so a corrupted entry makes it throw
    the parser's error. *)
Theorem getUser_edge_cases st (text : string) :
  authService.getUser JSON_parse (authService.clearTokens st) = Fulfilled None /\
  authService.getUser JSON_parse (removeItem USER_KEY st) = Fulfilled None /\
  authService.getUser JSON_parse (setItem USER_KEY "" st) = Fulfilled None /\
  (text <> "" ->
   authService.getUser JSON_parse (setItem USER_KEY text st)
   = match JSON_parse text with
     | Fulfilled u => Fulfilled (Some u)
     | Rejected e => Rejected e
     end).
Proof.
  unfold authService.getUser.
  pose proof (clearTokens_absent st) as (_ & _ & Hu).
  split; [rewrite Hu; reflexivity |].
  unfold getItem, setItem, removeItem.
  split; [rewrite lookup_delete_eq; reflexivity |].
  split; [rewrite lookup_insert_eq; reflexivity |].
  intros Hne. rewrite lookup_insert_eq.
  destruct text as [|c r]; [congruence | reflexivity].
Qed.

(** X7.  With a [JSON.parse] that inverts [JSON.stringify] on [u] (whose
    JSON text is not empty), [getUser()] after [setUser(u)] returns [u],
    also when the tokens are rewritten in between. *)
Theorem getUser_setUser_round_trip st (u : User) (t : string) (e : Z) :
  JSON_parse (JSON_stringify u) = Fulfilled u ->
  JSON_stringify u <> "" ->
  authService.getUser JSON_parse (authService.setUser u st) = Fulfilled (Some u) /\
  authService.getUser JSON_parse
    (authService.setTokens t e (authService.setUser u st)) = Fulfilled (Some u).
Proof.
  intros Hparse Hne.
  assert (Hread : forall st', getItem USER_KEY st' = Some (JSON_stringify u) ->
                              authService.getUser JSON_parse st' = Fulfilled (Some u)).
  { intros st' Hst'. unfold authService.getUser. rewrite Hst'.
    destruct (JSON_stringify u) as [|c r] eqn:E; [congruence |].
    cbn [JS.truthy_string]. rewrite Hparse. reflexivity. }
  split; apply Hread.
  - unfold authService.setUser, getItem, setItem. apply lookup_insert_eq.
  - unfold authService.setTokens, authService.setUser, getItem, setItem.
    rewrite !lookup_insert_ne by discriminate. apply lookup_insert_eq.
Qed.

End CachedUser.

Lemma getUser_setUser_round_trip_witness :
  authService.getUser (fun _ => Fulfilled Sample.alice)
    (@authService.setUser Sample.healthy Sample.alice ∅)
  = Fulfilled (Some Sample.alice) /\
  authService.getUser (fun _ => Fulfilled Sample.alice)
    (authService.setTokens "abc" 1700003600
       (@authService.setUser Sample.healthy Sample.alice ∅))
  = Fulfilled (Some Sample.alice).
Proof.
  apply (@getUser_setUser_round_trip Sample.healthy
           (fun _ => Fulfilled Sample.alice) ∅ Sample.alice "abc" 1700003600).
  - reflexivity.
  - discriminate.
Defined.

(** ** The refresh predicate over time *)

Section RefreshPredicate.

Context `{Platform}.

Implicit Types st : gmap string string.

(** X8.  "Expiring soon" is monotone in time: once [isTokenExpiringSoon()]
    is true for a storage it stays true at every later clock reading. *)
Theorem isTokenExpiringSoon_monotone st (dateNow later : Z) :
  dateNow <= later ->
  useTokenRefresh.isTokenExpiringSoon dateNow st = true ->
  useTokenRefresh.isTokenExpiringSoon later st = true.
Proof.
  intros Hle. unfold useTokenRefresh.isTokenExpiringSoon.
  destruct (negb (JS.truthy_string (authService.getAccessToken st))
            || negb (JS.truthy_number (authService.getAccessTokenExpiry st)));
    [reflexivity |].
  assert (Hdiv : dateNow / 1000 <= later / 1000) by (apply Z.div_le_mono; lia).
  destruct (authService.getAccessTokenExpiry st) as [[|e]|];
    [discriminate | |]; rewrite !Z.ltb_lt; unfold ACCESS_TOKEN_BUFFER; lia.
Qed.

(** X9.  Right after [setTokens(t, e)] with a safe integer [e] the
    predicate depends on nothing but [t], [e] and the clock: it is true
    exactly when [t] is empty, [e] is 0, or fewer than 60 whole seconds
    remain. *)
Theorem isTokenExpiringSoon_after_setTokens st (t : string) (e dateNow : Z) :
  JS.isSafeInteger e = true ->
  useTokenRefresh.isTokenExpiringSoon dateNow (authService.setTokens t e st)
  = negb (JS.truthy_string (Some t)) || (e =? 0)
    || (e - dateNow / 1000 <? ACCESS_TOKEN_BUFFER).
Proof.
  intros Hsafe. unfold useTokenRefresh.isTokenExpiringSoon.
  rewrite getAccessToken_setTokens, getAccessTokenExpiry_setTokens by exact Hsafe.
  cbn [JS.truthy_number].
  destruct (JS.truthy_string (Some t)); cbn [negb orb]; [| reflexivity].
  destruct (e =? 0); reflexivity.
Qed.

(** X10.  What the predicates say after [refreshToken()]: after a [false]
    result the service is unauthenticated and a refresh is still due; after
    a [true] result the stored token is the server's and, when the server's
    expiry is a safe integer, that expiry is what is read back and whether a
    refresh is due is decided by the server's token and expiry alone. *)
Theorem refreshToken_then_predicates (b : Browser) (dateNow : Z) :
  let after := localStorage (snd (useTokenRefresh.refreshToken b)) in
  match http POST_auth_refresh (requests b) (localStorage b) with
  | (Rejected _, _) =>
      fst (useTokenRefresh.refreshToken b) = Fulfilled false /\
      authService.isAuthenticated after = false /\
      useTokenRefresh.isTokenExpiringSoon dateNow after = true
  | (Fulfilled response, _) =>
      fst (useTokenRefresh.refreshToken b) = Fulfilled true /\
      authService.getAccessToken after = Some (access_token response) /\
      authService.isAuthenticated after
        = JS.truthy_string (Some (access_token response)) /\
      (JS.isSafeInteger (expires_at response) = true ->
       authService.getAccessTokenExpiry after
         = Some (JS.Num (expires_at response)) /\
       useTokenRefresh.isTokenExpiringSoon dateNow after
       = negb (JS.truthy_string (Some (access_token response)))
         || (expires_at response =? 0)
         || (expires_at response - dateNow / 1000 <? ACCESS_TOKEN_BUFFER))
  end.
Proof.
  unfold useTokenRefresh.refreshToken, authService.refresh,
    try_catch, bind, ret, onStorage, modify, apiFetch.
  cbn [fst snd localStorage requests].
  destruct (http POST_auth_refresh _ _) as [[response|e] st1];
    cbn [fst snd localStorage requests].
  - split; [reflexivity |].
    split; [apply getAccessToken_setTokens |].
    split.
    + unfold authService.isAuthenticated.
      rewrite getAccessToken_setTokens. reflexivity.
    + intros Hsafe.
      split; [apply getAccessTokenExpiry_setTokens; exact Hsafe |].
      unfold useTokenRefresh.isTokenExpiringSoon.
      rewrite getAccessToken_setTokens, getAccessTokenExpiry_setTokens
        by exact Hsafe.
      cbn [JS.truthy_number].
      destruct (JS.truthy_string (Some (access_token response)));
        cbn [negb orb]; [| reflexivity].
      destruct (expires_at response =? 0); reflexivity.
  - split; [reflexivity |].
    pose proof (clearTokens_absent st1) as (Ht & _ & _).
    unfold authService.isAuthenticated, useTokenRefresh.isTokenExpiringSoon,
      authService.getAccessToken.
    rewrite Ht. split; reflexivity.
Qed.

End RefreshPredicate.

Lemma isTokenExpiringSoon_monotone_witness :
  useTokenRefresh.isTokenExpiringSoon 1700003600000
    (authService.setTokens "abc" 1700003600 ∅) = true.
Proof.
  apply (isTokenExpiringSoon_monotone
           (authService.setTokens "abc" 1700003600 ∅)
           1700003541000 1700003600000).
  - lia.
  - vm_compute. reflexivity.
Defined.

Lemma isTokenExpiringSoon_after_setTokens_witness :
  useTokenRefresh.isTokenExpiringSoon 1700000000000
    (authService.setTokens "abc" 1700003600 ∅)
  = negb (JS.truthy_string (Some "abc")) || (1700003600 =? 0)
    || (1700003600 - 1700000000000 / 1000 <? ACCESS_TOKEN_BUFFER).
Proof.
  apply (isTokenExpiringSoon_after_setTokens ∅ "abc" 1700003600 1700000000000).
  reflexivity.
Defined.

(** ** The context operations, case by case *)

Section ContextOperations.

Context `{Platform}.

Ltac step_ops :=
  cbn [fst snd localStorage requests login_username login_password
         AuthContext.user AuthContext.isLoading AuthContext.error].

Ltac run_ops :=
  unfold AuthForms.handleSubmit, AuthContext.clearError;
  unfold AuthContext.initAuth, AuthContext.register, AuthContext.login,
    AuthContext.logout, AuthContext.logoutAll, AuthContext.changePassword;
  unfold AuthContext.setUser, AuthContext.setIsLoading, AuthContext.setError;
  unfold authService.login, authService.register, authService.getCurrentUser,
    authService.changePassword, authService.logout, authService.logoutAll;
  unfold try_catch, try_finally, bind, ret, throw, gets, svc, setState,
    onStorage, modify, apiFetch;
  step_ops.

(** X11.  On mount without a usable token (none stored, or the empty
    string) [initAuth] issues no request at all, leaves storage and [user]
    as they are and only turns [isLoading] off. *)
Theorem initAuth_without_token (c : AuthContext.AuthProvider) (b : Browser) :
  authService.isAuthenticated (localStorage b) = false ->
  AuthContext.initAuth (c, b)
  = (Fulfilled tt,
     ({| AuthContext.user := AuthContext.user c;
         AuthContext.isLoading := false;
         AuthContext.error := AuthContext.error c |}, b)).
Proof.
  intros Hanon. run_ops. rewrite Hanon. reflexivity.
Qed.

(** X12.  On mount with a non-empty token and a fulfilled [GET /users/me],
    [initAuth] makes exactly that one request, puts the returned user into
    the context and caches its JSON text under the user key on top of what
    the call left in storage, tokens included. *)
Theorem initAuth_restores_session
  (c : AuthContext.AuthProvider) (b : Browser) (u : User)
  (st1 : gmap string string) :
  authService.isAuthenticated (localStorage b) = true ->
  http GET_users_me (requests b) (localStorage b) = (Fulfilled u, st1) ->
  AuthContext.initAuth (c, b)
  = (Fulfilled tt,
     ({| AuthContext.user := Some u;
         AuthContext.isLoading := false;
         AuthContext.error := AuthContext.error c |},
      {| localStorage := authService.setUser u st1;
         requests := requests b ++ [GET_users_me] |})) /\
  getItem USER_KEY (authService.setUser u st1) = Some (JSON_stringify u) /\
  authService.getAccessToken (authService.setUser u st1)
    = authService.getAccessToken st1.
Proof.
  intros Hauth Hhttp. split; [| split].
  - run_ops. rewrite Hauth. step_ops. rewrite Hhttp. reflexivity.
  - unfold authService.setUser, getItem, setItem. apply lookup_insert_eq.
  - unfold authService.getAccessToken, authService.setUser, getItem, setItem.
    apply lookup_insert_ne. discriminate.
Qed.

(** X13.  The context's [login], in each of its three courses.  If the
    login call is rejected: the error is recorded and re-thrown, nothing is
    stored.  If it is fulfilled but [GET /users/me] is rejected: the error
    is recorded and re-thrown and [user] is unchanged, on top of the storage
    that already holds the new tokens.  If both are fulfilled: [user] is the
    fetched user, [error] is null and the user is cached.  [isLoading] ends
    false in all three. *)
Theorem context_login_outcome
  (data : LoginRequest) (c : AuthContext.AuthProvider) (b : Browser) :
  let call := POST_auth_login (login_username data) (login_password data) in
  let failed (e : JS.thrown) : AuthContext.AuthProvider :=
    {| AuthContext.user := AuthContext.user c;
       AuthContext.isLoading := false;
       AuthContext.error := Some (JS.messageOr "Login failed" e) |} in
  match http call (requests b) (localStorage b) with
  | (Rejected e, st1) =>
      AuthContext.login data (c, b)
      = (Rejected e,
         (failed e, {| localStorage := st1; requests := requests b ++ [call] |}))
  | (Fulfilled tok, st1) =>
      match http GET_users_me (requests b ++ [call])
              (authService.setTokens (access_token tok) (expires_at tok) st1) with
      | (Rejected e, st2) =>
          AuthContext.login data (c, b)
          = (Rejected e,
             (failed e,
              {| localStorage := st2;
                 requests := (requests b ++ [call]) ++ [GET_users_me] |}))
      | (Fulfilled u, st2) =>
          AuthContext.login data (c, b)
          = (Fulfilled tt,
             ({| AuthContext.user := Some u;
                 AuthContext.isLoading := false;
                 AuthContext.error := None |},
              {| localStorage := authService.setUser u st2;
                 requests := (requests b ++ [call]) ++ [GET_users_me] |}))
      end
  end.
Proof.
  intros call failed. subst call failed. run_ops.
  destruct (http (POST_auth_login _ _) _ _) as [[tok|e] st1]; step_ops;
    [| reflexivity].
  destruct (http GET_users_me _ _) as [[u|e] st2]; reflexivity.
Qed.

(** X14.  The context's [register] at its two ends.  If [POST
    /auth/register] itself is rejected, only that one request is made,
    nothing is stored and the error is recorded and re-thrown.  If all three
    calls are fulfilled, the requests are register, login with the e-mail as
    user name, and the user fetch, in that order; [user] is the fetched
    user, [error] is null, and tokens and user are stored. *)
Theorem context_register_outcome
  (data : RegisterRequest) (c : AuthContext.AuthProvider) (b : Browser) :
  let step1 := POST_auth_register data in
  let step2 := POST_auth_login (reg_email data) (reg_password data) in
  (forall e st1,
      http step1 (requests b) (localStorage b) = (Rejected e, st1) ->
      AuthContext.register data (c, b)
      = (Rejected e,
         ({| AuthContext.user := AuthContext.user c;
             AuthContext.isLoading := false;
             AuthContext.error := Some (JS.messageOr "Registration failed" e) |},
          {| localStorage := st1; requests := requests b ++ [step1] |}))) /\
  (forall r1 st1 tok st2 u st3,
      http step1 (requests b) (localStorage b) = (Fulfilled r1, st1) ->
      http step2 (requests b ++ [step1]) st1 = (Fulfilled tok, st2) ->
      http GET_users_me ((requests b ++ [step1]) ++ [step2])
           (authService.setTokens (access_token tok) (expires_at tok) st2)
        = (Fulfilled u, st3) ->
      AuthContext.register data (c, b)
      = (Fulfilled tt,
         ({| AuthContext.user := Some u;
             AuthContext.isLoading := false;
             AuthContext.error := None |},
          {| localStorage := authService.setUser u st3;
             requests := ((requests b ++ [step1]) ++ [step2]) ++ [GET_users_me] |}))).
Proof.
  intros step1 step2. subst step1 step2. split.
  - intros e st1 H1. run_ops. rewrite H1. reflexivity.
  - intros r1 st1 tok st2 u st3 H1 H2 H3. run_ops.
    rewrite H1. step_ops. rewrite H2. step_ops. rewrite H3. reflexivity.
Qed.

(** X17.  [changePassword] never touches [user] and writes nothing to
    storage itself; it makes one request, ends with [isLoading] false, and
    records and re-throws a rejection while a success leaves [error]
    null. *)
Theorem context_changePassword_outcome
  (currentPassword newPassword : string)
  (c : AuthContext.AuthProvider) (b : Browser) :
  let call := POST_auth_change_password currentPassword newPassword in
  let after st :=
    {| localStorage := st; requests := requests b ++ [call] |} in
  match http call (requests b) (localStorage b) with
  | (Fulfilled _, st1) =>
      AuthContext.changePassword currentPassword newPassword (c, b)
      = (Fulfilled tt,
         ({| AuthContext.user := AuthContext.user c;
             AuthContext.isLoading := false;
             AuthContext.error := None |}, after st1))
  | (Rejected e, st1) =>
      AuthContext.changePassword currentPassword newPassword (c, b)
      = (Rejected e,
         ({| AuthContext.user := AuthContext.user c;
             AuthContext.isLoading := false;
             AuthContext.error :=
               Some (JS.messageOr "Failed to change password" e) |}, after st1))
  end.
Proof.
  intros call after. subst call after. run_ops.
  destruct (http (POST_auth_change_password _ _) _ _) as [[r|e] st1]; reflexivity.
Qed.

(** X18.  No context operation can leave the spinner on: whatever the
    backend does, [isLoading] is false once [initAuth], [register],
    [login], [logout], [logoutAll] or [changePassword] has settled. *)
Theorem context_operations_end_not_loading
  (s : AuthContext.AuthProvider * Browser)
  (form : RegisterRequest) (credentials : LoginRequest)
  (currentPassword newPassword : string) :
  AuthContext.isLoading (fst (snd (AuthContext.initAuth s))) = false /\
  AuthContext.isLoading (fst (snd (AuthContext.register form s))) = false /\
  AuthContext.isLoading (fst (snd (AuthContext.login credentials s))) = false /\
  AuthContext.isLoading (fst (snd (AuthContext.logout s))) = false /\
  AuthContext.isLoading (fst (snd (AuthContext.logoutAll s))) = false /\
  AuthContext.isLoading
    (fst (snd (AuthContext.changePassword currentPassword newPassword s))) = false.
Proof.
  unfold AuthContext.initAuth, AuthContext.register, AuthContext.login,
    AuthContext.logout, AuthContext.logoutAll, AuthContext.changePassword.
  repeat split;
    match goal with
    | |- context [try_finally ?body _ ?x] =>
        exact (proj1 (proj2 (finally_clears_loading body x)))
    end.
Qed.

(** X19.  [RegisterForm.handleSubmit] never rejects.  It behaves as
    [register] run on the context with its error cleared, the thrown error
    being swallowed; afterwards [error] is null exactly when the
    registration went through, so the form can rely on it. *)
Theorem handleSubmit_swallows_errors
  (formData : RegisterRequest) (c : AuthContext.AuthProvider) (b : Browser) :
  let cleared :=
    {| AuthContext.user := AuthContext.user c;
       AuthContext.isLoading := AuthContext.isLoading c;
       AuthContext.error := None |} in
  let direct := AuthContext.register formData (cleared, b) in
  let submitted := AuthForms.handleSubmit formData (c, b) in
  fst submitted = Fulfilled tt /\
  snd submitted = snd direct /\
  (AuthContext.error (fst (snd submitted)) = None <-> fst direct = Fulfilled tt).
Proof.
  cbv zeta. run_ops.
  destruct (http (POST_auth_register _) _ _) as [[r1|e] st1]; step_ops.
  2: { repeat split; discriminate. }
  destruct (http (POST_auth_login _ _) _ _) as [[tok|e] st2]; step_ops.
  2: { repeat split; discriminate. }
  destruct (http GET_users_me _ _) as [[u|e] st3]; step_ops.
  - repeat split; reflexivity.
  - repeat split; discriminate.
Qed.

End ContextOperations.

Lemma initAuth_without_token_witness :
  @AuthContext.initAuth Sample.down
    (AuthContext.initialState, Sample.browserWith (setItem USER_KEY "stale" ∅))
  = (Fulfilled tt,
     ({| AuthContext.user := None;
         AuthContext.isLoading := false;
         AuthContext.error := None |},
      Sample.browserWith (setItem USER_KEY "stale" ∅))).
Proof.
  apply (@initAuth_without_token Sample.down AuthContext.initialState
           (Sample.browserWith (setItem USER_KEY "stale" ∅))).
  vm_compute. reflexivity.
Defined.

Lemma initAuth_restores_session_witness :
  let st := authService.setTokens "abc" 1700003600 ∅ in
  @AuthContext.initAuth Sample.healthy
    (AuthContext.initialState, Sample.browserWith st)
  = (Fulfilled tt,
     ({| AuthContext.user := Some Sample.alice;
         AuthContext.isLoading := false;
         AuthContext.error := None |},
      {| localStorage := @authService.setUser Sample.healthy Sample.alice st;
         requests := [GET_users_me] |})) /\
  getItem USER_KEY (@authService.setUser Sample.healthy Sample.alice st)
    = Some "alice" /\
  authService.getAccessToken (@authService.setUser Sample.healthy Sample.alice st)
    = authService.getAccessToken st.
Proof.
  intros st.
  apply (@initAuth_restores_session Sample.healthy AuthContext.initialState
           (Sample.browserWith st) Sample.alice st).
  - vm_compute. reflexivity.
  - reflexivity.
Defined.

Lemma context_register_outcome_witness :
  @AuthContext.register Sample.down Sample.aliceForm
    (AuthContext.initialState, Sample.freshBrowser)
  = (Rejected (JS.ErrorObj "401 Unauthorized"),
     ({| AuthContext.user := None;
         AuthContext.isLoading := false;
         AuthContext.error := Some "401 Unauthorized" |},
      {| localStorage := ∅;
         requests := [POST_auth_register Sample.aliceForm] |})) /\
  @AuthContext.register Sample.healthy Sample.aliceForm
    (AuthContext.initialState, Sample.freshBrowser)
  = (Fulfilled tt,
     ({| AuthContext.user := Some Sample.alice;
         AuthContext.isLoading := false;
         AuthContext.error := None |},
      {| localStorage :=
           @authService.setUser Sample.healthy Sample.alice
             (authService.setTokens "eyJhbGciOi" 1700003600 ∅);
         requests := [POST_auth_register Sample.aliceForm;
                      POST_auth_login "alice@example.org" "correct horse";
                      GET_users_me] |})).
Proof.
  split.
  - apply (proj1 (@context_register_outcome Sample.down Sample.aliceForm
                    AuthContext.initialState Sample.freshBrowser)
             (JS.ErrorObj "401 Unauthorized") ∅ eq_refl).
  - apply (proj2 (@context_register_outcome Sample.healthy Sample.aliceForm
                    AuthContext.initialState Sample.freshBrowser)
             {| message := "registered" |} ∅ Sample.token ∅ Sample.alice
             (authService.setTokens "eyJhbGciOi" 1700003600 ∅)
             eq_refl eq_refl eq_refl).
Defined.

(** ** Route guard and profile page *)

Section RouteGuard.

Context `{Platform}.

Import ProtectedRoute.

(** X20.  [ProtectedRoute] shows its children exactly when the context is
    not loading, the [isAuthenticated] prop is true, a user is present and
    either no role is required or the user's role is the required one.  In
    particular it never shows them while loading or for a null user. *)
Theorem ProtectedRoute_children_iff
  (isAuthenticated : bool) (requiredRole : option string)
  (ctx : AuthContext.AuthProvider) :
  ProtectedRoute isAuthenticated requiredRole ctx = Children <->
  AuthContext.isLoading ctx = false /\
  isAuthenticated = true /\
  exists user,
    AuthContext.user ctx = Some user /\
    (requiredRole = None \/ requiredRole = Some "" \/ requiredRole = Some (role user)).
Proof.
  unfold ProtectedRoute.
  destruct (AuthContext.isLoading ctx);
    [split; [discriminate | intros [[=] _]] |].
  destruct isAuthenticated; cbn [negb orb];
    [| split; [discriminate | intros (_ & [=] & _)]].
  destruct (AuthContext.user ctx) as [user|]; cbn;
    [| split; [discriminate | intros (_ & _ & u & [=] & _)]].
  destruct requiredRole as [[|ch r]|]; cbn.
  - split; [intros _ | reflexivity]. repeat split. exists user. auto.
  - destruct (String.eqb_spec (role user) (String ch r)) as [Heq|Hne]; cbn.
    + split; [intros _ | reflexivity]. repeat split. exists user.
      split; [reflexivity |]. right; right. congruence.
    + split; [discriminate |].
      intros (_ & _ & u & [= <-] & [[=] | [[=] | [= Heq]]]). congruence.
  - split; [intros _ | reflexivity]. repeat split. exists user. auto.
Qed.

(** X21.  The guard around the mount sequence, fed with the context's own
    [isAuthenticated]: in the provider's initial state it shows the loading
    screen; in the state in which [initAuth] settles it does not; and there,
    without a required role, it shows the children when a non-empty token
    was stored and [GET /users/me] was fulfilled, and redirects to the login
    page otherwise.  The loading screen is shown exactly while [isLoading]
    is true, so it returns whenever a later operation turns the flag on. *)
Theorem ProtectedRoute_after_mount (b : Browser) (requiredRole : option string) :
  let guard ctx :=
    ProtectedRoute (AuthContext.isAuthenticated ctx) requiredRole ctx in
  let mounted := fst (snd (AuthContext.initAuth (AuthContext.initialState, b))) in
  let restored :=
    authService.isAuthenticated (localStorage b) = true /\
    exists u, fst (http GET_users_me (requests b) (localStorage b)) = Fulfilled u in
  (forall ctx, guard ctx = LoadingContainer <-> AuthContext.isLoading ctx = true) /\
  guard AuthContext.initialState = LoadingContainer /\
  guard mounted <> LoadingContainer /\
  (restored ->
   ProtectedRoute (AuthContext.isAuthenticated mounted) None mounted = Children) /\
  (~ restored -> guard mounted = NavigateToLogin).
Proof.
  cbv zeta. split.
  { intros ctx. unfold ProtectedRoute.
    destruct (AuthContext.isLoading ctx); [split; reflexivity |].
    split; [| discriminate].
    destruct (negb (AuthContext.isAuthenticated ctx)
              || negb (bool_decide (is_Some (AuthContext.user ctx))));
      [discriminate |].
    destruct (AuthContext.user ctx); [| discriminate].
    destruct (JS.truthy_string requiredRole && _); discriminate. }
  split; [reflexivity |].
  unfold AuthContext.initAuth, AuthContext.setUser, AuthContext.setIsLoading,
    authService.getCurrentUser, try_catch, try_finally, bind, ret, gets, svc,
    setState, onStorage, modify, apiFetch.
  cbn [fst snd localStorage requests AuthContext.user AuthContext.isLoading
         AuthContext.error].
  destruct (authService.isAuthenticated (localStorage b)) eqn:Hauth;
    cbn [fst snd localStorage requests AuthContext.user AuthContext.isLoading
           AuthContext.error].
  - destruct (http GET_users_me (requests b) (localStorage b)) as [[u|e] st1];
      cbn [fst snd AuthContext.user AuthContext.isLoading AuthContext.error].
    + unfold ProtectedRoute. cbn.
      split; [destruct requiredRole as [[|? ?]|]; cbn;
              try destruct (String.eqb _ _); discriminate |].
      split; [reflexivity |].
      intros Hnot. exfalso. apply Hnot. split; [reflexivity | eauto].
    + split; [discriminate |].
      split; [intros (_ & u & Hu); cbn in Hu; discriminate Hu | reflexivity].
  - cbn. split; [discriminate |].
    split; [intros (Hyes & _); discriminate Hyes | reflexivity].
Qed.

(** X22.  [Profile.handleLogoutAll].  Declining the confirmation does
    nothing at all.  After confirming, the three durable keys are gone
    whatever the backend answered; the page moves to [/login] with a null
    user only when the remote call succeeded, and otherwise stays where it
    was with [user] unchanged and the handler rejected. *)
Theorem handleLogoutAll_outcome
  (location : string) (ctx : AuthContext.AuthProvider) (b : Browser) :
  let declined := Profile.handleLogoutAll false ((location, ctx), b) in
  let run := Profile.handleLogoutAll true ((location, ctx), b) in
  declined = (Fulfilled tt, ((location, ctx), b)) /\
  durable_keys_absent (localStorage (snd (snd run))) /\
  AuthContext.isLoading (snd (fst (snd run))) = false /\
  match fst (http POST_auth_logout_all (requests b) (localStorage b)) with
  | Fulfilled _ =>
      fst run = Fulfilled tt /\
      fst (fst (snd run)) = "/login" /\
      AuthContext.user (snd (fst (snd run))) = None
  | Rejected e =>
      (exists failure, fst run = Rejected failure) /\
      fst (fst (snd run)) = location /\
      AuthContext.user (snd (fst (snd run))) = AuthContext.user ctx /\
      AuthContext.error (snd (fst (snd run)))
        = Some (JS.messageOr "Logout failed" e)
  end.
Proof.
  cbv zeta. split; [reflexivity |].
  unfold Profile.handleLogoutAll, Profile.withContext, Profile.navigate.
  unfold AuthContext.logoutAll, AuthContext.setUser, AuthContext.setIsLoading,
    AuthContext.setError, authService.logoutAll.
  unfold try_catch, try_finally, bind, ret, throw, gets, svc, setState,
    onStorage, modify, apiFetch.
  cbn [fst snd localStorage requests AuthContext.user AuthContext.isLoading
         AuthContext.error].
  destruct (http POST_auth_logout_all _ _) as [[r|e] st];
    cbn [fst snd localStorage requests AuthContext.user AuthContext.isLoading
           AuthContext.error];
    (split; [apply clearTokens_absent | repeat split; eauto]).
Qed.

End RouteGuard.

(** ** MySubmissions: fetching and paging *)

Section SubmissionsFetching.

Context `{Platform}.

Import MySubmissions.

(** X23.  [fetchSubmissions] never rejects and always makes exactly one
    request, for [limit = 10] entries from [skip = (currentPage - 1) * 10].
    A call fulfilled with an array, or with an object whose [data] and
    [submissions] fields are arrays or missing, replaces the list by the
    payload's entries and clears the error.  A rejected call, and a call
    fulfilled with [null] or [undefined] (reading [data.data] then throws),
    empties the list and records the error's message, and the page then
    shows the empty state (with the message as banner unless it is empty).
    The page number is never changed and [loading] ends false. *)
Theorem fetchSubmissions_outcome (c : State) (b : Browser) :
  let call :=
    GET_submissions_me ((currentPage c - 1) * itemsPerPage) itemsPerPage in
  let after st := {| localStorage := st; requests := requests b ++ [call] |} in
  let failed message st :=
    fetchSubmissions (c, b)
    = (Fulfilled tt,
       ({| loading := false; submissions := [];
           error := Some message; currentPage := currentPage c |}, after st)) /\
    render (fst (snd (fetchSubmissions (c, b))))
    = Page (if JS.truthy_string (Some message) then Some message else None)
           EmptyState in
  itemsPerPage = 10 /\
  match http call (requests b) (localStorage b) with
  | (Fulfilled (Payload payload), st1) =>
      fetchSubmissions (c, b)
      = (Fulfilled tt,
         ({| loading := false; submissions := submissionData payload;
             error := None; currentPage := currentPage c |}, after st1))
  | (Fulfilled Nullish, st1) =>
      exists message, failed message st1
  | (Rejected e, st1) =>
      failed (JS.messageOr "Failed to fetch submissions" e) st1
  end.
Proof.
  cbv zeta. split; [reflexivity |].
  unfold fetchSubmissions, readSubmissionData, setLoading, setSubmissions, setError.
  unfold try_catch, try_finally, bind, ret, throw, gets, svc, setState, modify,
    apiFetch.
  cbn [fst snd loading submissions error currentPage localStorage requests].
  destruct (http (GET_submissions_me _ _) _ _) as [[[payload|]|e] st1];
    cbn [fst snd loading submissions error currentPage localStorage requests].
  - reflexivity.
  - eexists. split; reflexivity.
  - split; reflexivity.
Qed.

End SubmissionsFetching.

Section SubmissionsPaging.

Import MySubmissions.

(** X25.  Page numbers stay positive: from a page [>= 1], "Previous" and
    "Next" lead to pages [>= 1], "Next" then "Previous" comes back to the
    same state, the request offset [(currentPage - 1) * 10] is never
    negative, and "Previous" changes nothing exactly on page 1, the page on
    which the button is disabled. *)
Theorem page_number_stays_positive (c : State) :
  1 <= currentPage c ->
  1 <= currentPage (onPrevious c) /\
  1 <= currentPage (onNext c) /\
  onPrevious (onNext c) = c /\
  0 <= (currentPage c - 1) * itemsPerPage /\
  (onPrevious c = c <-> currentPage c = 1).
Proof.
  intros Hpos. destruct c as [l subs err page]. cbn [currentPage] in Hpos.
  unfold onPrevious, onNext, setCurrentPage, itemsPerPage.
  cbn [currentPage loading submissions error].
  split; [lia |]. split; [lia |].
  split; [f_equal; lia |]. split; [lia |].
  split.
  - intros [= Heq]. lia.
  - intros ->. reflexivity.
Qed.

(** X26.  The spinner is shown only while loading with nothing to show.  As
    soon as submissions are held, also during a refetch, the table is
    drawn with one row per submission, in order, keyed by the submission
    id, together with the pagination. *)
Theorem render_screens (c : State) :
  (render c = LoadingState <-> loading c = true /\ submissions c = []) /\
  (submissions c <> [] ->
   exists banner p,
     render c = Page banner
                  (SubmissionsTable (map renderRow (submissions c)) (Some p)) /\
     map key (map renderRow (submissions c))
       = map submission_id (submissions c)) /\
  (loading c = false -> submissions c = [] ->
   exists banner, render c = Page banner EmptyState).
Proof.
  unfold render.
  destruct (submissions c) as [|x l] eqn:E.
  - change (arrayLength [] =? 0) with true. rewrite andb_true_r.
    split; [| split].
    + destruct (loading c); split;
        [auto | reflexivity | discriminate | intros [[=] _]].
    + congruence.
    + intros Hl _. rewrite Hl. eexists. reflexivity.
  - assert (Hlen : 0 < arrayLength (x :: l)).
    { unfold arrayLength. cbn [length]. lia. }
    destruct (Z.eqb_spec (arrayLength (x :: l)) 0) as [H0|_]; [lia |].
    destruct (Z.ltb_spec 0 (arrayLength (x :: l))) as [_|H0]; [| lia].
    rewrite andb_false_r. split; [| split].
    + split; [discriminate | intros [_ [=]]].
    + intros _. do 2 eexists. split; [reflexivity |].
      rewrite map_map. reflexivity.
    + intros _ [=].
Qed.

(** X27.  Status badges: each of the five known statuses has a class of its
    own, every other status string gets [status-unknown], and the label is
    the status itself except for the three statuses that are spelled
    out. *)
Theorem status_badges (s s' : string) :
  let known x :=
    x = "ACCEPTED" \/ x = "PENDING" \/ x = "WRONG_ANSWER" \/
    x = "RUNTIME_ERROR" \/ x = "TIME_LIMIT_EXCEEDED" in
  (getStatusColor s = "status-unknown" <-> ~ known s) /\
  (known s -> getStatusColor s = getStatusColor s' -> s = s') /\
  (getStatusText s = s \/
   s = "WRONG_ANSWER" \/ s = "RUNTIME_ERROR" \/ s = "TIME_LIMIT_EXCEEDED").
Proof.
  cbv zeta. unfold getStatusColor, getStatusText.
  destruct (String.eqb_spec s "ACCEPTED");
  destruct (String.eqb_spec s "PENDING");
  destruct (String.eqb_spec s "WRONG_ANSWER");
  destruct (String.eqb_spec s "RUNTIME_ERROR");
  destruct (String.eqb_spec s "TIME_LIMIT_EXCEEDED"); subst; try discriminate;
    (split; [split; [try discriminate; tauto | intros Hn; try reflexivity;
                                                  exfalso; apply Hn; tauto] |]);
    (split; [| tauto]);
    intros Hk;
    destruct (String.eqb_spec s' "ACCEPTED");
    destruct (String.eqb_spec s' "PENDING");
    destruct (String.eqb_spec s' "WRONG_ANSWER");
    destruct (String.eqb_spec s' "RUNTIME_ERROR");
    destruct (String.eqb_spec s' "TIME_LIMIT_EXCEEDED"); subst;
    try discriminate; try reflexivity; try tauto; try congruence.
Qed.

End SubmissionsPaging.

Lemma page_number_stays_positive_witness :
  let c := {| MySubmissions.loading := false;
              MySubmissions.submissions := [];
              MySubmissions.error := None;
              MySubmissions.currentPage := 3 |} in
  1 <= MySubmissions.currentPage (MySubmissions.onPrevious c) /\
  1 <= MySubmissions.currentPage (MySubmissions.onNext c) /\
  MySubmissions.onPrevious (MySubmissions.onNext c) = c /\
  0 <= (MySubmissions.currentPage c - 1) * MySubmissions.itemsPerPage /\
  (MySubmissions.onPrevious c = c <-> MySubmissions.currentPage c = 1).
Proof.
  intros c. apply (page_number_stays_positive c). cbn. lia.
Defined.

(** ** AdminIssues: the status filter *)

Section IssueFilter.

Import JSString AdminIssues.

Lemma toLowerChar_not_upper (c : ascii) : isUpperCase (toLowerChar c) = false.
Proof.
  destruct c as [[] [] [] [] [] [] [] []]; vm_compute; reflexivity.
Qed.

Lemma toUpperChar_upper (c : ascii) :
  isLowerCase c = true -> isUpperCase (toUpperChar c) = true.
Proof.
  destruct c as [[] [] [] [] [] [] [] []]; vm_compute; intros Hc;
    first [reflexivity | discriminate Hc].
Qed.

(** A lower-cased string never equals an upper-cased string that had a
    lower-case letter to begin with. *)
Lemma toLowerCase_ne_toUpperCase (f : string) :
  hasLowerCase f = true -> forall s, toLowerCase s <> toUpperCase f.
Proof.
  induction f as [|c r IH]; cbn [hasLowerCase]; [discriminate |].
  intros Hlow [|c' r']; cbn [toLowerCase toUpperCase]; [discriminate |].
  intros [= Hc Hr].
  apply orb_true_iff in Hlow as [Hc_low | Hr_low].
  - pose proof (toLowerChar_not_upper c') as Hno.
    rewrite Hc, (toUpperChar_upper c Hc_low) in Hno. discriminate.
  - exact (IH Hr_low r' Hr).
Qed.

Lemma filter_nothing_kept {A} (p : A -> bool) (l : list A) :
  (forall x, p x = false) -> List.filter p l = [].
Proof.
  intros Hp. induction l as [|x l IH]; cbn [List.filter]; [reflexivity |].
  rewrite Hp. exact IH.
Qed.

(** X28.  The status filters other than "all" never match: the issue's
    status is compared lower-cased against the filter upper-cased, so with
    the filter "open", "in_progress" or "closed" the filtered list is empty
    whatever issues are held, and once loading is over the page shows the
    "No ... issues" text, the underscore of the filter name replaced by a
    blank. *)
Theorem status_filters_match_nothing (c : State) :
  filter c = "open" \/ filter c = "in_progress" \/ filter c = "closed" ->
  filteredIssues c = [] /\
  (loading c = false ->
   render c = IssuesEmpty ("No " ++ replaceChar "_" " " (filter c) ++ " issues")%string) /\
  (replaceChar "_" " " (filter c) = "open" \/
   replaceChar "_" " " (filter c) = "in progress" \/
   replaceChar "_" " " (filter c) = "closed").
Proof.
  intros Hf.
  assert (Hnot_all : String.eqb (filter c) "all" = false)
    by (destruct Hf as [-> | [-> | ->]]; reflexivity).
  assert (Hlow : hasLowerCase (filter c) = true)
    by (destruct Hf as [-> | [-> | ->]]; reflexivity).
  assert (Hempty : filteredIssues c = []).
  { unfold filteredIssues. apply filter_nothing_kept. intros issue.
    unfold keeps. rewrite Hnot_all.
    apply String.eqb_neq. apply toLowerCase_ne_toUpperCase. exact Hlow. }
  split; [exact Hempty |]. split.
  - intros Hl. unfold render. rewrite Hl, Hempty, Hnot_all. reflexivity.
  - destruct Hf as [-> | [-> | ->]]; cbn; auto.
Qed.

(** X29.  [fetchIssues] makes no request and leaves the browser untouched:
    it empties the issue list, keeps the filter and turns loading off, so
    the page then always shows an empty text, "No issues reported yet"
    under the filter "all".  Under "all" nothing is ever filtered out. *)
Theorem fetchIssues_loads_nothing (c : State) (b : Browser) :
  fetchIssues (c, b)
  = (Fulfilled tt, ({| issues := []; loading := false; filter := filter c |}, b)) /\
  render (fst (snd (fetchIssues (c, b))))
  = IssuesEmpty
      (if String.eqb (filter c) "all" then "No issues reported yet"
       else ("No " ++ replaceChar "_" " " (filter c) ++ " issues")%string) /\
  filteredIssues (setFilter "all" c) = issues c.
Proof.
  split; [| split].
  - unfold fetchIssues, setLoading, setIssues, try_catch, try_finally, bind,
      ret, setState, modify.
    cbn [fst snd issues loading filter]. destruct b. reflexivity.
  - reflexivity.
  - unfold filteredIssues, setFilter, keeps. cbn [filter issues].
    induction (issues c) as [|x l IH]; cbn [List.filter]; [reflexivity |].
    rewrite IH. reflexivity.
Qed.

End IssueFilter.

Lemma status_filters_match_nothing_witness :
  let openIssue :=
    {| AdminIssues.issue_id := 1; AdminIssues.issue_title := "Wrong test case";
       AdminIssues.description := "Expected output of test 3 is off by one";
       AdminIssues.issue_status := "OPEN"; AdminIssues.priority := "HIGH";
       AdminIssues.issue_created_at := "2024-01-03T09:00:00Z";
       AdminIssues.created_by := "alice" |} in
  let c := {| AdminIssues.issues := [openIssue];
              AdminIssues.loading := false;
              AdminIssues.filter := "open" |} in
  AdminIssues.filteredIssues c = [] /\
  (AdminIssues.loading c = false ->
   AdminIssues.render c
   = AdminIssues.IssuesEmpty
       ("No " ++ JSString.replaceChar "_" " " (AdminIssues.filter c) ++ " issues")%string) /\
  (JSString.replaceChar "_" " " (AdminIssues.filter c) = "open" \/
   JSString.replaceChar "_" " " (AdminIssues.filter c) = "in progress" \/
   JSString.replaceChar "_" " " (AdminIssues.filter c) = "closed").
Proof.
  intros openIssue c. apply (status_filters_match_nothing c).
  left. reflexivity.
Defined.

Example open_issue_shown_under_all :
  AdminIssues.render
    {| AdminIssues.issues :=
         [{| AdminIssues.issue_id := 1; AdminIssues.issue_title := "Wrong test case";
             AdminIssues.description := "Expected output of test 3 is off by one";
             AdminIssues.issue_status := "OPEN"; AdminIssues.priority := "HIGH";
             AdminIssues.issue_created_at := "2024-01-03T09:00:00Z";
             AdminIssues.created_by := "alice" |}];
       AdminIssues.loading := false;
       AdminIssues.filter := "all" |}
  = AdminIssues.IssuesList
      [{| AdminIssues.card_key := 1;
          AdminIssues.card_title := "Wrong test case";
          AdminIssues.statusBadgeClass := "issue-status open";
          AdminIssues.statusBadgeText := "OPEN";
          AdminIssues.priorityBadgeClass := "issue-priority high";
          AdminIssues.priorityBadgeText := "HIGH";
          AdminIssues.card_description := "Expected output of test 3 is off by one";
          AdminIssues.reportedBy := "alice" |}].
Proof. reflexivity. Qed.

(** ** Reading a stored expiry *)

Section StoredExpiry.

Implicit Types st : gmap string string.

Lemma string_append_nil (s : string) : ("" ++ s)%string = s.
Proof. reflexivity. Qed.

Lemma string_append_cons (c : ascii) (s t : string) :
  (String c s ++ t)%string = String c (s ++ t)%string.
Proof. reflexivity. Qed.

Ltac push_append := rewrite ?string_append_cons, ?string_append_nil in *.

Lemma digitsValue_suffix_acc (d : Decimal.uint) (a : positive) (c : ascii)
  (rest : string) :
  JS.digitValue c = None ->
  JS.digitsValue (NilEmpty.string_of_uint d ++ String c rest)%string (Z.pos a)
  = Z.pos (Pos.of_uint_acc d a).
Proof.
  intros Hc. revert a.
  induction d as [|d IH|d IH|d IH|d IH|d IH|d IH|d IH|d IH|d IH|d IH];
    intros a;
    cbn [NilEmpty.string_of_uint Pos.of_uint_acc]; push_append;
    cbn [JS.digitsValue];
    [rewrite Hc; reflexivity | ..];
    change (JS.digitValue _) with (Some 0) || change (JS.digitValue _) with (Some 1)
    || change (JS.digitValue _) with (Some 2) || change (JS.digitValue _) with (Some 3)
    || change (JS.digitValue _) with (Some 4) || change (JS.digitValue _) with (Some 5)
    || change (JS.digitValue _) with (Some 6) || change (JS.digitValue _) with (Some 7)
    || change (JS.digitValue _) with (Some 8) || change (JS.digitValue _) with (Some 9);
    cbv beta iota;
    rewrite <- IH; f_equal; lia.
Qed.

Lemma digitsValue_suffix (d : Decimal.uint) (c : ascii) (rest : string) :
  JS.digitValue c = None ->
  JS.digitsValue (NilEmpty.string_of_uint d ++ String c rest)%string 0
  = Z.of_N (Pos.of_uint d).
Proof.
  intros Hc.
  induction d as [|d IH|d IH|d IH|d IH|d IH|d IH|d IH|d IH|d IH|d IH];
    cbn [NilEmpty.string_of_uint Pos.of_uint Z.of_N]; push_append;
    cbn [JS.digitsValue];
    [rewrite Hc; reflexivity | exact IH | ..];
    rewrite <- (digitsValue_suffix_acc _ _ c rest Hc); reflexivity.
Qed.

Lemma parseInt_suffix_uint (d : Decimal.uint) (c : ascii) (rest : string) :
  d <> Decimal.Nil ->
  JS.digitValue c = None ->
  JS.parseInt (NilEmpty.string_of_uint d ++ String c rest)%string
    = JS.Num (JS.toDouble (Z.of_N (Pos.of_uint d))) /\
  JS.parseInt (String "-" (NilEmpty.string_of_uint d ++ String c rest))%string
    = JS.Num (JS.toDouble (- Z.of_N (Pos.of_uint d))).
Proof.
  intros Hd Hc. pose proof (digitsValue_suffix d c rest Hc) as Hv.
  destruct d; [congruence | ..]; split;
    unfold JS.parseInt;
    cbn [NilEmpty.string_of_uint] in *; push_append;
    match goal with
    | |- context [JS.trimStart ?s] => change (JS.trimStart s) with s
    end;
    cbv beta iota zeta;
    match goal with
    | |- context [JS.startsWithDigit ?s] => change (JS.startsWithDigit s) with true
    end;
    cbv beta iota; rewrite Hv; do 2 f_equal; lia.
Qed.

(** X24.  [getAccessTokenExpiry()] reads the leading integer only: if the
    stored text is the decimal rendering of a safe integer [n] followed by
    anything that does not start with a digit (a fractional part, a unit,
    blanks), the expiry read is [n], and the refresh predicate treats it
    exactly like a stored [n]. *)
Theorem expiry_reads_leading_integer
  st (token : string) (n dateNow : Z) (c : ascii) (rest : string) :
  JS.isSafeInteger n = true ->
  JS.digitValue c = None ->
  let stored :=
    setItem ACCESS_TOKEN_EXPIRY_KEY (JS.toString n ++ String c rest)%string
      (setItem ACCESS_TOKEN_KEY token st) in
  authService.getAccessTokenExpiry stored = Some (JS.Num n) /\
  useTokenRefresh.isTokenExpiringSoon dateNow stored
  = useTokenRefresh.isTokenExpiringSoon dateNow (authService.setTokens token n st).
Proof.
  intros Hsafe Hc stored.
  assert (Hparse : JS.parseInt (JS.toString n ++ String c rest)%string = JS.Num n).
  { rewrite (toString_safe n Hsafe).
    rewrite <- (toDouble_safe n Hsafe) at 2. clear Hsafe.
    destruct n as [|p|p].
    - unfold JS.parseInt. change (JS.decimalDigits 0) with "0". push_append.
      change (JS.trimStart (String "0" (String c rest)))
        with (String "0" (String c rest)).
      cbv beta iota zeta.
      change (JS.startsWithDigit (String "0" (String c rest))) with true.
      cbv beta iota. cbn [JS.digitsValue].
      change (JS.digitValue "0") with (Some 0). cbv beta iota.
      rewrite Hc. reflexivity.
    - unfold JS.decimalDigits, Z.to_int, NilZero.string_of_int,
        NilZero.string_of_uint.
      pose proof (DecimalPos.Unsigned.to_uint_nonnil p) as Hnil.
      destruct (parseInt_suffix_uint _ c rest Hnil Hc) as [Hpos _].
      destruct (Pos.to_uint p) eqn:E; try congruence;
        rewrite <- E in *; rewrite Hpos, DecimalPos.Unsigned.of_to; reflexivity.
    - unfold JS.decimalDigits, Z.to_int, NilZero.string_of_int,
        NilZero.string_of_uint.
      pose proof (DecimalPos.Unsigned.to_uint_nonnil p) as Hnil.
      destruct (parseInt_suffix_uint _ c rest Hnil Hc) as [_ Hneg].
      destruct (Pos.to_uint p) eqn:E; try congruence;
        rewrite <- E in *; push_append; rewrite Hneg, DecimalPos.Unsigned.of_to;
        reflexivity. }
  assert (Hexp : authService.getAccessTokenExpiry stored = Some (JS.Num n)).
  { unfold authService.getAccessTokenExpiry, stored, getItem, setItem.
    rewrite lookup_insert_eq.
    assert (Htruthy : JS.truthy_string (Some (JS.toString n ++ String c rest)%string) = true).
    { pose proof (toString_truthy n) as Ht.
      destruct (JS.toString n); [discriminate Ht | reflexivity]. }
    rewrite Htruthy, Hparse. reflexivity. }
  split; [exact Hexp |].
  unfold useTokenRefresh.isTokenExpiringSoon.
  rewrite Hexp, getAccessTokenExpiry_setTokens, getAccessToken_setTokens
    by exact Hsafe.
  unfold authService.getAccessToken, stored, getItem, setItem.
  rewrite lookup_insert_ne by discriminate. rewrite lookup_insert_eq.
  reflexivity.
Qed.

End StoredExpiry.

Lemma expiry_reads_leading_integer_witness :
  let stored : gmap string string :=
    setItem ACCESS_TOKEN_EXPIRY_KEY "1700003600.75"
      (setItem ACCESS_TOKEN_KEY "abc" ∅) in
  authService.getAccessTokenExpiry stored = Some (JS.Num 1700003600) /\
  useTokenRefresh.isTokenExpiringSoon 1700000000000 stored
  = useTokenRefresh.isTokenExpiringSoon 1700000000000
      (authService.setTokens "abc" 1700003600 ∅).
Proof.
  apply (expiry_reads_leading_integer ∅ "abc" 1700003600 1700000000000
           "."%char "75").
  - reflexivity.
  - reflexivity.
Defined.
